(** * TidePredWeb: the harmonic tide predictor of [tide_pred.py]

    A shallow embedding of the parameter loader ([TidePred.read_tide_params]),
    the predictor ([TidePred.tidal_pred], [h_tide_comp], [hours_to_zero]),
    the annual grid generator ([HourlyReport.generate_hourly_report]) and the
    accuracy metric ([calculate_rmse]), with the properties the specification
    states about them.

    Modelling conventions.
    - A Python [int] is a [Z].  A Python [float] is idealised as a real
      number ([R]): every operation is exact and every value is finite, so
      rounding, overflow, infinities and NaN are outside the model.
    - A Python [str] is the list of its Unicode code points.
    - Code that can raise returns a [result]; the exception classes are the
      ones the program can meet ([exn]).
    - The object state of [TidePred] ([tp] and [no_of_sub_tide]) is passed
      explicitly; [read_tide_params] is a state transformer because it
      assigns to [self] before it may fail.
    - [datetime] and [timedelta] follow the proleptic Gregorian arithmetic of
      the standard library: the ordinal of a date, the inverse conversion,
      and the range check on the result of an addition.  The [datetime]
      constructor is the one of CPython, which converts its arguments to C
      [int]s (taken as 32 bits wide) before it checks their ranges. *)

From Stdlib Require Import ZArith List Bool Lia Reals Lra Ascii.
From Stdlib Require String.
Import String.StringSyntax.
Delimit Scope string_scope with string.
Import ListNotations.

Local Open Scope Z_scope.

(** ** Exceptions and fallible computations *)

Inductive exn : Type :=
| ValueError
| IndexError
| ZeroDivisionError
| OverflowError
| FileNotFoundError.

Inductive result (A : Type) : Type :=
| Ok (a : A)
| Raise (e : exn).

Arguments Ok {A} a.
Arguments Raise {A} e.

Definition bind {A B : Type} (c : result A) (k : A -> result B) : result B :=
  match c with
  | Ok a => k a
  | Raise e => Raise e
  end.

Notation "x <- c ;; k" := (bind c (fun x => k))
  (at level 61, c at next level, right associativity).

(** [for x in xs: acc = body(acc, x)], stopping at the first exception. *)
Fixpoint for_each {A X : Type} (body : A -> X -> result A) (xs : list X)
  (acc : A) : result A :=
  match xs with
  | [] => Ok acc
  | x :: rest => acc' <- body acc x ;; for_each body rest acc'
  end.

(** Python's [range(a, b)] and [range(n)]. *)
Definition py_range (a b : Z) : list Z :=
  map (fun k => a + Z.of_nat k) (seq 0 (Z.to_nat (b - a))).

Definition range (n : Z) : list nat := seq 0 (Z.to_nat n).

(** A subscript [xs[i]] with [0 <= i]: [IndexError] past the end. *)
Definition subscript {A : Type} (xs : list A) (i : nat) : result A :=
  match nth_error xs i with
  | Some x => Ok x
  | None => Raise IndexError
  end.

(** ** The calendar *)

(** [calendar.isleap]. *)
Definition isleap (year : Z) : bool :=
  (year mod 4 =? 0) && (negb (year mod 100 =? 0) || (year mod 400 =? 0)).

(** [TidePred.hours_to_zero]: the accumulator [d] is a float. *)
Definition hours_to_zero (ay by_ : Z) : R :=
  let d :=
    if by_ >? ay then
      fold_left (fun (d : R) (i : Z) =>
                   if isleap i then (d + 366)%R else (d + 365)%R)
                (py_range ay by_) 0%R
    else 0%R in
  (d * 24)%R.

(** The leap rule in the specification's words: divisible by 4, except
    centuries not divisible by 400. *)
Definition spec_leap (y : Z) : Prop :=
  (4 | y) /\ ~ ((100 | y) /\ ~ (400 | y)).

Definition divisible (y d : Z) : bool := y mod d =? 0.

(** 366 for a leap year, 365 otherwise. *)
Definition spec_days_in_year (y : Z) : Z :=
  if divisible y 4 && negb (divisible y 100 && negb (divisible y 400))
  then 366 else 365.

Definition Zsum (l : list Z) : Z := fold_right Z.add 0 l.

(** ** [datetime] and [timedelta] *)

Definition MINYEAR : Z := 1.
Definition MAXYEAR : Z := 9999.
(** [date.max.toordinal()]. *)
Definition MAXORDINAL : Z := 3652059.

Definition DAYS_IN_MONTH : list Z :=
  [-1; 31; 28; 31; 30; 31; 30; 31; 31; 30; 31; 30; 31].

Definition DAYS_BEFORE_MONTH : list Z :=
  [-1; 0; 31; 59; 90; 120; 151; 181; 212; 243; 273; 304; 334].

Definition table (t : list Z) (i : Z) : Z := nth (Z.to_nat i) t (-1).

Definition b2z (b : bool) : Z := if b then 1 else 0.

(** Number of days before January 1st of [year]. *)
Definition days_before_year (year : Z) : Z :=
  let y := year - 1 in
  y * 365 + y / 4 - y / 100 + y / 400.

Definition days_in_month (year month : Z) : Z :=
  if (month =? 2) && isleap year then 29 else table DAYS_IN_MONTH month.

Definition days_before_month (year month : Z) : Z :=
  table DAYS_BEFORE_MONTH month + b2z ((2 <? month) && isleap year).

(** The proleptic Gregorian ordinal: January 1st of year 1 is day 1. *)
Definition ymd2ord (year month day : Z) : Z :=
  days_before_year year + days_before_month year month + day.

Definition DI400Y : Z := 146097.
Definition DI100Y : Z := 36524.
Definition DI4Y : Z := 1461.

(** The month and the day of the month of day [n] (from 0) of a year. *)
Definition month_and_day (n : Z) (leapyear : bool) : Z * Z :=
  let month := Z.shiftr (n + 50) 5 in
  let preceding :=
    table DAYS_BEFORE_MONTH month + b2z ((2 <? month) && leapyear) in
  if preceding >? n then
    let month := month - 1 in
    let preceding :=
      preceding
      - (table DAYS_IN_MONTH month + b2z ((month =? 2) && leapyear)) in
    (month, n - preceding + 1)
  else (month, n - preceding + 1).

(** The inverse conversion, by 400-, 100-, 4- and 1-year cycles. *)
Definition ord2ymd (ordinal : Z) : Z * Z * Z :=
  let n := ordinal - 1 in
  let n400 := n / DI400Y in
  let n := n mod DI400Y in
  let year := n400 * 400 + 1 in
  let n100 := n / DI100Y in
  let n := n mod DI100Y in
  let n4 := n / DI4Y in
  let n := n mod DI4Y in
  let n1 := n / 365 in
  let n := n mod 365 in
  let year := year + (n100 * 100 + n4 * 4 + n1) in
  if (n1 =? 4) || (n100 =? 4) then (year - 1, 12, 31)
  else
    let leapyear := (n1 =? 3) && (negb (n4 =? 24) || (n100 =? 3)) in
    let '(month, day) := month_and_day n leapyear in
    (year, month, day).

Record datetime : Type := mk_datetime {
  year : Z;
  month : Z;
  day : Z;
  hour : Z;
  minute : Z;
  second : Z;
  microsecond : Z
}.

Definition between (lo x hi : Z) : bool := (lo <=? x) && (x <=? hi).

(** The field checks of the [datetime] constructor. *)
Definition fields_ok (y m d hh mm ss us : Z) : bool :=
  between MINYEAR y MAXYEAR && between 1 m 12
  && between 1 d (days_in_month y m)
  && between 0 hh 23 && between 0 mm 59 && between 0 ss 59
  && between 0 us 999999.

(** The values a C [int] holds. *)
Definition C_INT_MIN : Z := - 2 ^ 31.
Definition C_INT_MAX : Z := 2 ^ 31 - 1.

Definition fits_c_int (x : Z) : bool := between C_INT_MIN x C_INT_MAX.

(** [datetime(y, m, d, hh, mm, ss, us)]: the constructor first converts its
    arguments to C [int]s, with [OverflowError] for one that does not fit,
    and then checks the fields, with [ValueError] on a field out of
    range. *)
Definition new_datetime (y m d hh mm ss us : Z) : result datetime :=
  if forallb fits_c_int [y; m; d; hh; mm; ss; us] then
    if fields_ok y m d hh mm ss us then Ok (mk_datetime y m d hh mm ss us)
    else Raise ValueError
  else Raise OverflowError.

Definition valid_datetime (t : datetime) : Prop :=
  fields_ok (year t) (month t) (day t) (hour t) (minute t) (second t)
            (microsecond t) = true.

Definition toordinal (t : datetime) : Z :=
  ymd2ord (year t) (month t) (day t).

(** A [timedelta] is a duration in whole microseconds; its normalised
    [days], [seconds] and [microseconds] are the quotients below. *)
Record timedelta : Type := mk_timedelta { total_us : Z }.

Definition US_PER_SECOND : Z := 1000000.
Definition US_PER_DAY : Z := 86400 * US_PER_SECOND.

Definition timedelta_of (days hours : Z) : timedelta :=
  mk_timedelta ((days * 86400 + hours * 3600) * US_PER_SECOND).

Definition td_days (d : timedelta) : Z := total_us d / US_PER_DAY.
Definition td_seconds (d : timedelta) : Z :=
  (total_us d mod US_PER_DAY) / US_PER_SECOND.
Definition td_microseconds (d : timedelta) : Z :=
  (total_us d mod US_PER_DAY) mod US_PER_SECOND.

Definition td_add (a b : timedelta) : timedelta :=
  mk_timedelta (total_us a + total_us b).

Definition td_neg (a : timedelta) : timedelta :=
  mk_timedelta (- total_us a).

(** [timedelta.total_seconds()]: an [int / int] true division. *)
Definition total_seconds (d : timedelta) : R :=
  (IZR ((td_days d * 86400 + td_seconds d) * 1000000 + td_microseconds d)
   / IZR 1000000)%R.

(** [datetime + timedelta]: the ordinal and the time of day are turned into
    one [timedelta], the operand is added, and the sum is converted back;
    [OverflowError] when the day leaves [1 .. MAXORDINAL]. *)
Definition datetime_add (t : datetime) (d : timedelta) : result datetime :=
  let delta :=
    td_add (mk_timedelta
              ((toordinal t * 86400
                + (hour t * 3600 + minute t * 60 + second t)) * US_PER_SECOND
               + microsecond t)) d in
  let hh := td_seconds delta / 3600 in
  let rem := td_seconds delta mod 3600 in
  let mm := rem / 60 in
  let ss := rem mod 60 in
  if (0 <? td_days delta) && (td_days delta <=? MAXORDINAL) then
    let '(y, m, dd) := ord2ymd (td_days delta) in
    Ok (mk_datetime y m dd hh mm ss (td_microseconds delta))
  else Raise OverflowError.

(** [datetime - timedelta] is [datetime + (-timedelta)]. *)
Definition datetime_sub_timedelta (t : datetime) (d : timedelta)
  : result datetime :=
  datetime_add t (td_neg d).

(** [datetime - datetime] for naive datetimes. *)
Definition datetime_sub (a b : datetime) : timedelta :=
  let days1 := toordinal a in
  let days2 := toordinal b in
  let secs1 := second a + minute a * 60 + hour a * 3600 in
  let secs2 := second b + minute b * 60 + hour b * 3600 in
  mk_timedelta (((days1 - days2) * 86400 + (secs1 - secs2)) * US_PER_SECOND
                + (microsecond a - microsecond b)).

(** ** Strings *)

(** A [str] is the list of its code points. *)
Definition pystr : Type := list Z.

Definition code (c : ascii) : Z := Z.of_N (N_of_ascii c).

(** An ASCII literal. *)
Definition lit (s : String.string) : pystr :=
  map code (String.list_ascii_of_string s).

Arguments lit s%_string.

(** The characters [str.strip()] and [str.split()] treat as whitespace. *)
Definition isspace (c : Z) : bool :=
  between 9 c 13 || between 28 c 32 || (c =? 133) || (c =? 160)
  || (c =? 5760) || between 8192 c 8202 || (c =? 8232) || (c =? 8233)
  || (c =? 8239) || (c =? 8287) || (c =? 12288).

Fixpoint lstrip (s : pystr) : pystr :=
  match s with
  | [] => []
  | c :: rest => if isspace c then lstrip rest else s
  end.

Definition rstrip (s : pystr) : pystr := rev (lstrip (rev s)).

(** [s.strip()]. *)
Definition strip (s : pystr) : pystr := rstrip (lstrip s).

(** The pieces between separator characters, empty pieces included. *)
Fixpoint pieces (sep : Z -> bool) (s : pystr) : list pystr :=
  match s with
  | [] => [[]]
  | c :: rest =>
      if sep c then [] :: pieces sep rest
      else match pieces sep rest with
           | p :: ps => (c :: p) :: ps
           | [] => [[c]]
           end
  end.

(** The truth value of a sequence. *)
Definition nonempty {A : Type} (p : list A) : bool :=
  match p with [] => false | _ :: _ => true end.

(** [s.split()]: split on runs of whitespace. *)
Definition split (s : pystr) : list pystr :=
  filter nonempty (pieces isspace s).

(** [s.split(' ')]: split at every single space character. *)
Definition split_space (s : pystr) : list pystr :=
  pieces (fun c => c =? 32) s.

Fixpoint startswith (p s : pystr) : bool :=
  match p, s with
  | [], _ => true
  | _ :: _, [] => false
  | a :: p', b :: s' => (a =? b) && startswith p' s'
  end.

(** [needle in hay]. *)
Fixpoint contains (needle hay : pystr) : bool :=
  startswith needle hay
  || match hay with
     | [] => false
     | _ :: rest => contains needle rest
     end.

(** The header markers of the parameter file. *)
Definition OBSERVED_YEAR : pystr := lit "Observed Year".
(** U+5206 U+6F6E U+6578. *)
Definition COUNT_MARK : pystr := [20998; 28526; 25976].
(** U+5E73 U+5747 U+6F6E U+4F4D followed by [(CM)]. *)
Definition MEAN_MARK : pystr := [24179; 22343; 28526; 20301] ++ lit "(CM)".
Definition CJ_MARK : pystr := lit "Cj(CM)".
Definition SJ_MARK : pystr := lit "Sj(CM)".

(** The conversions [int(s)] and [float(s)] of the Python runtime:
    [None] stands for the [ValueError] they raise on a string that is not a
    numeral. *)
Class Builtins : Type := {
  int_of_str : pystr -> option Z;
  float_of_str : pystr -> option R
}.

(** ** The parameter store *)

Record TideParam : Type := mk_TideParam {
  param_year : Z;
  h0 : R;
  tide_name : list pystr;
  cj : list R;
  sj : list R;
  sub_tide_period : list R
}.

Record TidePred : Type := mk_TidePred {
  tp : TideParam;
  no_of_sub_tide : Z
}.

(** [TideParam()] and [TidePred()]. *)
Definition TideParam_init : TideParam := mk_TideParam 0 0%R [] [] [] [].
Definition TidePred_init : TidePred := mk_TidePred TideParam_init 0.

(** Computations on [self] that may raise: the state reached so far is
    kept when an exception leaves the body. *)
Definition M (A : Type) : Type := TidePred -> TidePred * result A.

Definition ret {A : Type} (a : A) : M A := fun self => (self, Ok a).

Definition raise {A : Type} (e : exn) : M A := fun self => (self, Raise e).

Definition bindM {A B : Type} (c : M A) (k : A -> M B) : M B :=
  fun self =>
    match c self with
    | (self', Ok a) => k a self'
    | (self', Raise e) => (self', Raise e)
    end.

Notation "x <~ c ;; k" := (bindM c (fun x => k))
  (at level 61, c at next level, right associativity).
Notation "c ;;; k" := (bindM c (fun _ => k))
  (at level 61, right associativity).

Definition get : M TidePred := fun self => (self, Ok self).

Definition assign (f : TidePred -> TidePred) : M unit :=
  fun self => (f self, Ok tt).

Fixpoint for_eachM {X : Type} (body : X -> M unit) (xs : list X) : M unit :=
  match xs with
  | [] => ret tt
  | x :: rest => body x ;;; for_eachM body rest
  end.

Definition with_tp (f : TideParam -> TideParam) (self : TidePred) : TidePred :=
  mk_TidePred (f (tp self)) (no_of_sub_tide self).

Definition set_param_year (y : Z) : M unit :=
  assign (with_tp (fun p =>
    mk_TideParam y (h0 p) (tide_name p) (cj p) (sj p) (sub_tide_period p))).

Definition set_h0 (h : R) : M unit :=
  assign (with_tp (fun p =>
    mk_TideParam (param_year p) h (tide_name p) (cj p) (sj p)
                 (sub_tide_period p))).

Definition set_no_of_sub_tide (n : Z) : M unit :=
  assign (fun self => mk_TidePred (tp self) n).

Definition clear_lists : M unit :=
  assign (with_tp (fun p => mk_TideParam (param_year p) (h0 p) [] [] [] [])).

Definition append_tide_name (s : pystr) : M unit :=
  assign (with_tp (fun p =>
    mk_TideParam (param_year p) (h0 p) (tide_name p ++ [s]) (cj p) (sj p)
                 (sub_tide_period p))).

Definition append_sub_tide_period (x : R) : M unit :=
  assign (with_tp (fun p =>
    mk_TideParam (param_year p) (h0 p) (tide_name p) (cj p) (sj p)
                 (sub_tide_period p ++ [x]))).

Definition append_cj (x : R) : M unit :=
  assign (with_tp (fun p =>
    mk_TideParam (param_year p) (h0 p) (tide_name p) (cj p ++ [x]) (sj p)
                 (sub_tide_period p))).

Definition append_sj (x : R) : M unit :=
  assign (with_tp (fun p =>
    mk_TideParam (param_year p) (h0 p) (tide_name p) (cj p) (sj p ++ [x])
                 (sub_tide_period p))).

Section Loader.

Context {B : Builtins}.

(** [int(s)] and [float(s)]. *)
Definition py_int (s : pystr) : M Z :=
  match int_of_str s with
  | Some z => ret z
  | None => raise ValueError
  end.

Definition py_float (s : pystr) : M R :=
  match float_of_str s with
  | Some x => ret x
  | None => raise ValueError
  end.

(** [parts[k]] for a list known to be long enough. *)
Definition part (parts : list pystr) (k : nat) : pystr := nth k parts [].

(** The first loop of [read_tide_params]: [rest] is [lines[i:]]; the result
    is [data_start_index]. *)
Fixpoint scan_headers (lines : list pystr) (i : nat) (rest : list pystr)
  : M Z :=
  match rest with
  | [] => ret (-1)
  | line :: rest' =>
      if contains OBSERVED_YEAR line then
        match nth_error lines (i + 1) with
        | Some next =>
            let year_str := strip next in
            y <~ py_int year_str ;;
            set_param_year y ;;;
            scan_headers lines (S i) rest'
        | None => scan_headers lines (S i) rest'
        end
      else if contains COUNT_MARK line && contains MEAN_MARK line then
        match nth_error lines (i + 1) with
        | Some next =>
            let parts := split (strip next) in
            if (2 <=? length parts)%nat then
              n <~ py_int (part parts 0) ;;
              set_no_of_sub_tide n ;;;
              h <~ py_float (part parts 1) ;;
              set_h0 h ;;;
              scan_headers lines (S i) rest'
            else scan_headers lines (S i) rest'
        | None => scan_headers lines (S i) rest'
        end
      else if contains CJ_MARK line && contains SJ_MARK line then
        ret (Z.of_nat i + 1)
      else scan_headers lines (S i) rest'
  end.

(** The body of the second loop, for one value of [i]. *)
Definition read_row (lines : list pystr) (data_start_index : Z) (i : nat)
  : M unit :=
  let line_index := data_start_index + Z.of_nat i in
  match nth_error lines (Z.to_nat line_index) with
  | Some line =>
      let s := strip line in
      let parts := filter nonempty (split_space s) in
      if (6 <=? length parts)%nat then
        append_tide_name (part parts 0) ;;;
        x <~ py_float (part parts 1) ;;
        append_sub_tide_period x ;;;
        c <~ py_float (part parts 4) ;;
        append_cj c ;;;
        s <~ py_float (part parts 5) ;;
        append_sj s
      else ret tt
  | None => ret tt
  end.

(** The [try] block of [read_tide_params] after the file has been read, up
    to the validation. *)
Definition read_fields (lines : list pystr) : M unit :=
  clear_lists ;;;
  data_start_index <~ scan_headers lines 0 lines ;;
  self <~ get ;;
  if negb (data_start_index =? -1) && (no_of_sub_tide self >? 0) then
    for_eachM (read_row lines data_start_index)
              (range (no_of_sub_tide self))
  else ret tt.

(** The validation and the [return 0]. *)
Definition validate : M Z :=
  self <~ get ;;
  if (param_year (tp self) =? 0) || (no_of_sub_tide self =? 0)
     || negb (nonempty (tide_name (tp self)))
  then raise ValueError
  else ret 0.

Definition parse_lines (lines : list pystr) : M Z :=
  read_fields lines ;;; validate.

End Loader.

(** ** Files and printed messages *)

(** The file system as [open(fn).readlines()] sees it: [None] for a path
    that names no file. *)
Definition filesystem : Type := pystr -> option (list pystr).

(** [os.path.exists(fn)]. *)
Definition exists_ (fs : filesystem) (fn : pystr) : bool :=
  match fs fn with Some _ => true | None => false end.

(** What the program prints, by kind. *)
Inductive message : Type :=
| MsgFileNotFound (fn : pystr)      (** the [except FileNotFoundError] line *)
| MsgParseError (fn : pystr) (e : exn) (** the [except (ValueError, IndexError)] line *)
| MsgReading (fn : pystr)           (** the first line of [init_report] *)
| MsgParameters (rows : list (pystr * R * R * R)) (** [print_cj_sj()] *)
| MsgNoSuchFile (fn : pystr).       (** the guard of the main block *)

Section Program.

Context {B : Builtins}.

(** [TidePred.read_tide_params]: the new [self], what was printed, and the
    returned code (or an exception no [except] clause catches). *)
Definition read_tide_params (fs : filesystem) (fn : pystr) (self : TidePred)
  : TidePred * (list message * result Z) :=
  match fs fn with
  | None => (self, ([MsgFileNotFound fn], Ok (-1)))
  | Some lines =>
      match parse_lines lines self with
      | (self', Ok code) => (self', ([], Ok code))
      | (self', Raise FileNotFoundError) =>
          (self', ([MsgFileNotFound fn], Ok (-1)))
      | (self', Raise ValueError) =>
          (self', ([MsgParseError fn ValueError], Ok (-1)))
      | (self', Raise IndexError) =>
          (self', ([MsgParseError fn IndexError], Ok (-1)))
      | (self', Raise e) => (self', ([], Raise e))
      end
  end.

(** [TidePred.print_cj_sj]: the rows it formats, in the order it reads
    them (the amplitude and the phase angle, which it derives from [cj] and
    [sj], are left out of the row). *)
Definition print_cj_sj (self : TidePred)
  : result (list (pystr * R * R * R)) :=
  for_each (fun ss i =>
              c <- subscript (cj (tp self)) i ;;
              s <- subscript (sj (tp self)) i ;;
              name <- subscript (tide_name (tp self)) i ;;
              period <- subscript (sub_tide_period (tp self)) i ;;
              Ok (ss ++ [(name, period, c, s)]))
           (range (no_of_sub_tide self)) [].

Record HourlyReport : Type := mk_HourlyReport { tide : TidePred }.

Definition HourlyReport_init : HourlyReport := mk_HourlyReport TidePred_init.

(** [HourlyReport.init_report]. *)
Definition init_report (fs : filesystem) (param_fn : pystr)
  (self : HourlyReport) : HourlyReport * (list message * result Z) :=
  let '(tide', (out, r)) := read_tide_params fs param_fn (tide self) in
  let self' := mk_HourlyReport tide' in
  let out := MsgReading param_fn :: out in
  match r with
  | Raise e => (self', (out, Raise e))
  | Ok code =>
      if code =? -1 then (self', (out, Ok (-1)))
      else
        match print_cj_sj tide' with
        | Ok rows => (self', (out ++ [MsgParameters rows], Ok code))
        | Raise e => (self', (out, Raise e))
        end
  end.

End Program.

(** ** The predictor *)

(** Float division: [ZeroDivisionError] on a zero divisor. *)
Definition py_div (x y : R) : result R :=
  if Req_dec_T y 0 then Raise ZeroDivisionError else Ok (x / y)%R.

(** [TidePred.h_tide_comp]. *)
Definition h_tide_comp (self : TidePred) (m : Z) (t : R) : result R :=
  for_each (fun (total : R) (i : nat) =>
              period <- subscript (sub_tide_period (tp self)) i ;;
              angle <- py_div (2 * PI * t) period ;;
              c <- subscript (cj (tp self)) i ;;
              s <- subscript (sj (tp self)) i ;;
              Ok (total + (c * cos angle + s * sin angle))%R)
           (range m) (h0 (tp self)).

(** [TidePred.tidal_pred]. *)
Definition tidal_pred (self : TidePred) (tb : datetime) : result R :=
  let yr := year tb in
  let shift_time := hours_to_zero (param_year (tp self)) yr in
  new_year <- new_datetime yr 1 1 0 0 0 0 ;;
  yuan_dan_xt <- datetime_sub_timedelta new_year (timedelta_of 0 1) ;;
  let ts := datetime_sub tb yuan_dan_xt in
  let t0 := (total_seconds ts / 3600)%R in
  h <- h_tide_comp self (no_of_sub_tide self) (t0 + shift_time) ;;
  Ok (1 / 100 * h)%R.

(** ** The annual grid *)

(** [xs[i] = v] for [i] within the list. *)
Fixpoint store {A : Type} (xs : list A) (i : nat) (v : A) : list A :=
  match xs, i with
  | [], _ => []
  | _ :: rest, O => v :: rest
  | x :: rest, S i' => x :: store rest i' v
  end.

(** [HourlyReport.generate_hourly_report]. *)
Definition generate_hourly_report (self : HourlyReport) (yr : Z)
  : result (list (list R)) :=
  tb <- new_datetime yr 1 1 0 0 0 0 ;;
  let days_of_year := if isleap yr then 366 else 365 in
  for_each (fun report i =>
              let stage := repeat 0%R 24 in
              d <- datetime_add tb (timedelta_of (Z.of_nat i) 0) ;;
              stage <- for_each
                         (fun stage j =>
                            dh <- datetime_add d (timedelta_of 0 (Z.of_nat j)) ;;
                            tide_h <- tidal_pred (tide self) dh ;;
                            Ok (store stage j tide_h))
                         (range 24) stage ;;
              Ok (report ++ [stage]))
           (range days_of_year) [].

(** ** The main block, up to the generation of the grid *)

Inductive outcome : Type :=
| Exited                           (** [sys.exit()] before any prediction *)
| Crashed (e : exn)                (** an exception left [init_report] *)
| Generated (r : result (list (list R))).
                                   (** [generate_hourly_report] was called *)

Definition main {B : Builtins} (fs : filesystem) (param_file : pystr)
  (yr : Z) : list message * outcome :=
  if negb (nonempty param_file) || negb (exists_ fs param_file) then
    ([MsgNoSuchFile param_file], Exited)
  else
    let '(report_generator, (out, r)) :=
      init_report fs param_file HourlyReport_init in
    match r with
    | Raise e => (out, Crashed e)
    | Ok code =>
        if code =? -1 then (out, Exited)
        else (out, Generated (generate_hourly_report report_generator yr))
    end.

(** ** The accuracy metric *)

(** The builtin [sum] on floats. *)
Definition py_sum (xs : list R) : R := fold_left Rplus xs 0%R.

(** [math.sqrt]: [ValueError] on a negative argument. *)
Definition math_sqrt (x : R) : result R :=
  if Rlt_dec x 0 then Raise ValueError else Ok (sqrt x).

(** [calculate_rmse]. *)
Definition calculate_rmse (observed predicted : list R) : result R :=
  let squared_errors :=
    map (fun '(o, p) => ((p - o) ^ 2)%R) (combine observed predicted) in
  if negb (nonempty squared_errors) then Ok 0%R
  else
    mean_squared_error <-
      py_div (py_sum squared_errors) (INR (length squared_errors)) ;;
    math_sqrt mean_squared_error.

(** ** Plain decimal numerals

    An instance of [Builtins] for running the loader on concrete files: it
    reads the ASCII numerals [[+-]digits] and [[+-]digits.digits], on which
    it agrees with [int] and [float], and rejects every other string. *)

Definition digit_value (c : Z) : option Z :=
  if between 48 c 57 then Some (c - 48) else None.

Fixpoint digits_value (s : pystr) (acc : Z) : option Z :=
  match s with
  | [] => Some acc
  | c :: rest =>
      match digit_value c with
      | Some d => digits_value rest (10 * acc + d)
      | None => None
      end
  end.

Definition unsigned_int (s : pystr) : option Z :=
  match s with
  | [] => None
  | _ :: _ => digits_value s 0
  end.

Definition signed {A : Type} (neg : A -> A) (f : pystr -> option A)
  (s : pystr) : option A :=
  match s with
  | 45 :: rest => option_map neg (f rest)
  | 43 :: rest => f rest
  | _ => f s
  end.

Definition unsigned_float (s : pystr) : option R :=
  match pieces (fun c => c =? 46) s with
  | [ip] => option_map IZR (unsigned_int ip)
  | [ip; fp] =>
      match unsigned_int ip, unsigned_int fp with
      | Some a, Some b =>
          let scale := 10 ^ Z.of_nat (length fp) in
          Some (IZR (a * scale + b) / IZR scale)%R
      | _, _ => None
      end
  | _ => None
  end.

Definition decimal_int : pystr -> option Z := signed Z.opp unsigned_int.
Definition decimal_float : pystr -> option R := signed Ropp unsigned_float.

Definition decimal_builtins : Builtins :=
  {| int_of_str := decimal_int; float_of_str := decimal_float |}.

(** ** The specification's data model and formulas *)

Record Constituent : Type := mk_Constituent {
  name : pystr;
  periodHours : R;
  cosCoeff : R;
  sinCoeff : R
}.

Record HarmonicParameterSet : Type := mk_HarmonicParameterSet {
  baseYear : Z;
  meanLevel : R;
  constituents : list Constituent
}.

(** The parameter set a [TidePred] object stands for: its parallel lists
    read as one sequence of constituents. *)
Definition parameter_set (self : TidePred) : HarmonicParameterSet :=
  mk_HarmonicParameterSet
    (param_year (tp self)) (h0 (tp self))
    (map (fun '(n, p, c, s) => mk_Constituent n p c s)
         (combine (combine (combine (tide_name (tp self))
                                    (sub_tide_period (tp self)))
                           (cj (tp self)))
                  (sj (tp self)))).

(** The invariants of the data model: the count is the length of the
    constituent lists and is positive, the base year is not zero, every
    period is positive. *)
Definition invariants (self : TidePred) : Prop :=
  Z.of_nat (length (tide_name (tp self))) = no_of_sub_tide self
  /\ Z.of_nat (length (sub_tide_period (tp self))) = no_of_sub_tide self
  /\ Z.of_nat (length (cj (tp self))) = no_of_sub_tide self
  /\ Z.of_nat (length (sj (tp self))) = no_of_sub_tide self
  /\ 0 < no_of_sub_tide self
  /\ param_year (tp self) <> 0
  /\ Forall (fun p => (0 < p)%R) (sub_tide_period (tp self)).

(** What the predictor needs of a parameter set: the count is the length
    of the lists and no period is zero. *)
Definition usable (self : TidePred) : Prop :=
  Z.of_nat (length (tide_name (tp self))) = no_of_sub_tide self
  /\ Z.of_nat (length (sub_tide_period (tp self))) = no_of_sub_tide self
  /\ Z.of_nat (length (cj (tp self))) = no_of_sub_tide self
  /\ Z.of_nat (length (sj (tp self))) = no_of_sub_tide self
  /\ Forall (fun p => p <> 0%R) (sub_tide_period (tp self)).

Definition Rsum (xs : list R) : R := fold_right Rplus 0%R xs.

(** [meanLevel + sum_i (cosCoeff_i cos(2 pi t / period_i)
                        + sinCoeff_i sin(2 pi t / period_i))]. *)
Definition spec_height (ps : HarmonicParameterSet) (t : R) : R :=
  (meanLevel ps
   + Rsum (map (fun k =>
                  cosCoeff k * cos (2 * PI * t / periodHours k)
                  + sinCoeff k * sin (2 * PI * t / periodHours k))
               (constituents ps)))%R.

(** The position of a timestamp on the time line, in microseconds. *)
Definition instant (t : datetime) : Z :=
  (toordinal t * 86400 + hour t * 3600 + minute t * 60 + second t)
  * US_PER_SECOND + microsecond t.

Definition US_PER_HOUR : Z := 3600 * US_PER_SECOND.

(** Hours from one hour before January 1st 00:00 of the year of [tb] to
    [tb]. *)
Definition spec_t0 (tb : datetime) : R :=
  (IZR (instant tb
        - (instant (mk_datetime (year tb) 1 1 0 0 0 0) - US_PER_HOUR))
   / IZR US_PER_HOUR)%R.

Definition spec_predict (ps : HarmonicParameterSet) (tb : datetime) : R :=
  (1 / 100
   * spec_height ps (spec_t0 tb + hours_to_zero (baseYear ps) (year tb)))%R.

(** The timestamp of the grid cell [(d, h)] of year [yr]. *)
Definition grid_time (yr : Z) (d h : nat) : datetime :=
  let '(y, m, dd) := ord2ymd (ymd2ord yr 1 1 + Z.of_nat d) in
  mk_datetime y m dd (Z.of_nat h) 0 0 0.

(** [sqrt(mean((predicted - observed)^2))] over a set of pairs, 0 for the
    empty set. *)
Definition spec_rmse (pairs : list (R * R)) : R :=
  match pairs with
  | [] => 0%R
  | _ :: _ =>
      sqrt (Rsum (map (fun op => Rsqr (snd op - fst op)) pairs)
            / INR (length pairs))
  end.

(** ** Auxiliary notions *)

(** The check that [month_and_day] inverts [days_before_month]. *)
Definition month_day_ok (r : Z) (leap : bool) : bool :=
  let '(m, d) := month_and_day r leap in
  between 1 m 12
  && between 1 d (if (m =? 2) && leap then 29 else table DAYS_IN_MONTH m)
  && (table DAYS_BEFORE_MONTH m + b2z ((2 <? m) && leap) + d =? r + 1).

(** The number of days of a year, as the calendar counts them. *)
Definition days_in_year (y : Z) : Z := 365 + b2z (isleap y).

(** The time-of-day fields are within their ranges. *)
Definition time_of_day_ok (t : datetime) : Prop :=
  0 <= hour t <= 23 /\ 0 <= minute t <= 59 /\ 0 <= second t <= 59
  /\ 0 <= microsecond t <= 999999.

(** One term of the harmonic sum. *)
Definition term (t : R) (k : Constituent) : R :=
  (cosCoeff k * cos (2 * PI * t / periodHours k)
   + sinCoeff k * sin (2 * PI * t / periodHours k))%R.

(** The default of an index lookup among the constituents. *)
Definition nil_constituent : Constituent := mk_Constituent [] 0 0 0.

(** All four constituent lists have length [n]. *)
Definition loaded (self : TidePred) (n : nat) : Prop :=
  length (tide_name (tp self)) = n
  /\ length (sub_tide_period (tp self)) = n
  /\ length (cj (tp self)) = n
  /\ length (sj (tp self)) = n.

(** The fields of a data-table row, as [read_tide_params] cuts them. *)
Definition row_fields (line : pystr) : list pystr :=
  filter nonempty (split_space (strip line)).

(** The line is the one at which the first loop stops: it carries both
    column markers and none of the earlier branches takes it. *)
Definition is_table_header (line : pystr) : bool :=
  negb (contains OBSERVED_YEAR line)
  && negb (contains COUNT_MARK line && contains MEAN_MARK line)
  && (contains CJ_MARK line && contains SJ_MARK line).

(** No line before index [i] stops the first loop. *)
Definition scanned (lines : list pystr) (i : nat) : Prop :=
  forall k line, (k < i)%nat -> nth_error lines k = Some line ->
                 is_table_header line = false.

(** A header line whose following line holds a field that is not a
    numeral. *)
Definition header_conversion_fails {B : Builtins} (line next : pystr) : Prop :=
  (contains OBSERVED_YEAR line = true /\ int_of_str (strip next) = None)
  \/ (contains OBSERVED_YEAR line = false
      /\ contains COUNT_MARK line && contains MEAN_MARK line = true
      /\ (2 <= length (split (strip next)))%nat
      /\ (int_of_str (part (split (strip next)) 0) = None
          \/ float_of_str (part (split (strip next)) 1) = None)).

(** A row of at least six fields whose period, cosine or sine field is not
    a numeral. *)
Definition row_conversion_fails {B : Builtins} (line : pystr) : Prop :=
  (6 <= length (row_fields line))%nat
  /\ (float_of_str (part (row_fields line) 1) = None
      \/ float_of_str (part (row_fields line) 4) = None
      \/ float_of_str (part (row_fields line) 5) = None).

(** The scalar fields of [self] that the second loop leaves alone. *)
Definition same_scalars (s s' : TidePred) : Prop :=
  param_year (tp s') = param_year (tp s)
  /\ no_of_sub_tide s' = no_of_sub_tide s.

(** The constituent lists are the same in both states. *)
Definition same_lists (s s' : TidePred) : Prop :=
  tide_name (tp s') = tide_name (tp s)
  /\ sub_tide_period (tp s') = sub_tide_period (tp s)
  /\ cj (tp s') = cj (tp s)
  /\ sj (tp s') = sj (tp s).


(** ** Sample parameter files *)

Definition nl : pystr := [10].
Definition tab : pystr := [9].

Definition year_header : pystr := lit "* Observed Year" ++ nl.
Definition count_header : pystr :=
  lit "* " ++ COUNT_MARK ++ lit "  " ++ MEAN_MARK ++ nl.
Definition table_header : pystr :=
  lit "* name  period(HOURS)  amplitude  angle  Cj(CM) Sj(CM)" ++ nl.
Definition row_M2 : pystr :=
  lit "      M2     12.4206      5.5  0.9   -3.25   4.5" ++ nl.
Definition row_S2 : pystr :=
  lit "      S2     12.0      2.0  0.1   1.5   -1.25" ++ nl.

(** A well-formed file with two constituents. *)
Definition file_two : list pystr :=
  [year_header; lit "    2010" ++ nl; count_header; lit "       2     10.5" ++ nl;
   table_header; row_M2; row_S2].

(** The count line announces three constituents, the table holds one. *)
Definition file_short_table : list pystr :=
  [year_header; lit "    2010" ++ nl; count_header; lit "       3     10.5" ++ nl;
   table_header; row_M2].

(** One constituent, with a negative period. *)
Definition file_negative_period : list pystr :=
  [year_header; lit "    2010" ++ nl; count_header; lit "       1     10.5" ++ nl;
   table_header; lit "      M2     -12.0      5.5  0.9   -3.25   4.5" ++ nl].

(** The second row has two fields. *)
Definition file_short_row : list pystr :=
  [year_header; lit "    2010" ++ nl; count_header; lit "       2     10.5" ++ nl;
   table_header; row_M2; lit "      S2     12.0" ++ nl].

(** The second row separates its six numerals with tabs. *)
Definition file_tab_row : list pystr :=
  [year_header; lit "    2010" ++ nl; count_header; lit "       2     10.5" ++ nl;
   table_header; row_M2;
   lit "S2" ++ tab ++ lit "12.0" ++ tab ++ lit "2.0" ++ tab ++ lit "0.1"
   ++ tab ++ lit "1.5" ++ tab ++ lit "-1.25" ++ nl].

(** The period of the second row is not a numeral. *)
Definition file_bad_period : list pystr :=
  [year_header; lit "    2010" ++ nl; count_header; lit "       2     10.5" ++ nl;
   table_header; row_M2; lit "      S2     twelve      2.0  0.1   1.5   -1.25" ++ nl].

(** The year is not a numeral. *)
Definition file_bad_year : list pystr :=
  [year_header; lit "    MMX" ++ nl; count_header; lit "       2     10.5" ++ nl;
   table_header; row_M2; row_S2].

(** No line carries the column markers. *)
Definition file_no_table : list pystr :=
  [year_header; lit "    2010" ++ nl; count_header; lit "       2     10.5" ++ nl;
   row_M2; row_S2].

(** A file system with one file, named [params.txt]. *)
Definition one_file (content : list pystr) : filesystem :=
  fun fn => if list_eq_dec Z.eq_dec fn (lit "params.txt") then Some content
            else None.

Definition params_txt : pystr := lit "params.txt".
Definition missing_txt : pystr := lit "missing.txt".

(** The parameter set of [file_two]. *)
Definition tide_two : TidePred :=
  mk_TidePred
    (mk_TideParam 2010 (105 / 10)%R [lit "M2"; lit "S2"]
       [(- (325 / 100))%R; (15 / 10)%R] [(45 / 10)%R; (- (125 / 100))%R]
       [(124206 / 10000)%R; (120 / 10)%R])
    2.

(** The states [read_tide_params] reaches on [file_short_table] and on
    [file_negative_period]. *)
Definition tide_short_table : TidePred :=
  mk_TidePred
    (mk_TideParam 2010 (105 / 10)%R [lit "M2"] [(- (325 / 100))%R]
       [(45 / 10)%R] [(124206 / 10000)%R])
    3.

Definition tide_negative_period : TidePred :=
  mk_TidePred
    (mk_TideParam 2010 (105 / 10)%R [lit "M2"] [(- (325 / 100))%R]
       [(45 / 10)%R] [(- (120 / 10))%R])
    1.
(** ** Properties of the calendar *)

Lemma isleap_spec (y : Z) : isleap y = true <-> spec_leap y.
Proof.
  unfold isleap, spec_leap.
  rewrite andb_true_iff, orb_true_iff, negb_true_iff.
  rewrite !Z.eqb_eq, Z.eqb_neq.
  rewrite <- !Z.mod_divide by lia.
  split.
  - intros [H4 H]. split; [exact H4|]. intros [H100 H400]. tauto.
  - intros [H4 H]. split; [exact H4|].
    destruct (Z.eq_dec (y mod 100) 0) as [E|E]; [|now left].
    right. destruct (Z.eq_dec (y mod 400) 0) as [E'|E']; [exact E'|].
    exfalso. apply H. split; assumption.
Qed.

Lemma py_range_empty (a b : Z) : b <= a -> py_range a b = [].
Proof.
  intros H. unfold py_range.
  replace (Z.to_nat (b - a)) with 0%nat by lia. reflexivity.
Qed.

Lemma py_range_snoc (a b : Z) :
  a <= b -> py_range a (b + 1) = py_range a b ++ [b].
Proof.
  intros H. unfold py_range.
  replace (Z.to_nat (b + 1 - a)) with (S (Z.to_nat (b - a))) by lia.
  rewrite seq_S, map_app. cbn [map]. do 3 f_equal. lia.
Qed.

Lemma py_range_cons (a b : Z) :
  a < b -> py_range a b = a :: py_range (a + 1) b.
Proof.
  intros H. unfold py_range.
  replace (Z.to_nat (b - a)) with (S (Z.to_nat (b - (a + 1)))) by lia.
  cbn [seq map]. f_equal; [lia|].
  rewrite <- seq_shift, map_map. apply map_ext. intros k. lia.
Qed.

Lemma py_range_length (a b : Z) : length (py_range a b) = Z.to_nat (b - a).
Proof. unfold py_range. now rewrite length_map, length_seq. Qed.

Lemma In_py_range (a b y : Z) : In y (py_range a b) <-> a <= y < b.
Proof.
  unfold py_range. rewrite in_map_iff. split.
  - intros [k [<- Hk]]. apply in_seq in Hk. lia.
  - intros H. exists (Z.to_nat (y - a)). split; [lia|]. apply in_seq. lia.
Qed.

Lemma spec_days_isleap (y : Z) :
  spec_days_in_year y = if isleap y then 366 else 365.
Proof.
  unfold spec_days_in_year, isleap, divisible.
  destruct (y mod 4 =? 0), (y mod 100 =? 0), (y mod 400 =? 0); reflexivity.
Qed.

(** The float accumulator of [hours_to_zero] holds the integer day count. *)
Lemma hours_acc (l : list Z) (d0 : Z) :
  fold_left (fun (d : R) (i : Z) =>
               if isleap i then (d + 366)%R else (d + 365)%R) l (IZR d0)
  = IZR (d0 + Zsum (map spec_days_in_year l)).
Proof.
  revert d0. induction l as [|y l IH]; intros d0; cbn [fold_left map Zsum fold_right].
  - f_equal. lia.
  - fold (Zsum (map spec_days_in_year l)). rewrite (spec_days_isleap y).
    destruct (isleap y).
    + rewrite <- (plus_IZR d0 366), IH. f_equal. lia.
    + rewrite <- (plus_IZR d0 365), IH. f_equal. lia.
Qed.

Lemma hours_to_zero_sum (ay by_ : Z) :
  hours_to_zero ay by_
  = IZR (24 * Zsum (map spec_days_in_year (py_range ay by_))).
Proof.
  unfold hours_to_zero. destruct (Z.gtb_spec by_ ay) as [H|H].
  - rewrite (hours_acc _ 0), mult_IZR. rewrite Z.add_0_l. lra.
  - rewrite py_range_empty by lia. cbn. lra.
Qed.

Lemma Zsum_app (l1 l2 : list Z) : Zsum (l1 ++ l2) = Zsum l1 + Zsum l2.
Proof. induction l1 as [|x l1 IH]; cbn; [reflexivity | unfold Zsum in *; lia]. Qed.

Lemma spec_days_pos (y : Z) : 365 <= spec_days_in_year y <= 366.
Proof. rewrite spec_days_isleap. destruct (isleap y); lia. Qed.

Lemma py_range_split (a b c : Z) :
  a <= b <= c -> py_range a c = py_range a b ++ py_range b c.
Proof.
  intros H. unfold py_range.
  replace (Z.to_nat (c - a)) with (Z.to_nat (b - a) + Z.to_nat (c - b))%nat by lia.
  rewrite seq_app, map_app. f_equal. cbn [Nat.add].
  rewrite <- (Nat.add_0_r (Z.to_nat (b - a))) at 1.
  generalize 0%nat as s.
  induction (Z.to_nat (c - b)) as [|n IH]; intros s; cbn [seq map]; [reflexivity|].
  f_equal; [lia|].
  rewrite <- IH. do 2 f_equal. lia.
Qed.

Lemma days_sum_lower (l : list Z) :
  365 * Z.of_nat (length l) <= Zsum (map spec_days_in_year l).
Proof.
  induction l as [|y l IH]; cbn [length map Zsum fold_right]; [lia|].
  fold (Zsum (map spec_days_in_year l)).
  pose proof (spec_days_pos y). lia.
Qed.

Lemma days_sum_mono (ay b1 b2 : Z) :
  b1 < b2 -> ay < b2 ->
  Zsum (map spec_days_in_year (py_range ay b1))
  < Zsum (map spec_days_in_year (py_range ay b2)).
Proof.
  intros H12 H2. destruct (Z_le_gt_dec b1 ay) as [Hb|Hb].
  - rewrite (py_range_empty ay b1) by lia. cbn [map Zsum fold_right].
    pose proof (days_sum_lower (py_range ay b2)) as L.
    rewrite py_range_length in L. lia.
  - rewrite (py_range_split ay b1 b2) by lia.
    rewrite map_app, Zsum_app.
    pose proof (days_sum_lower (py_range b1 b2)) as L.
    rewrite py_range_length in L. lia.
Qed.

(** ** The calendar conversions *)

Lemma month_day_table :
  forallb (fun k => month_day_ok (Z.of_nat k) false) (seq 0 365)
  && forallb (fun k => month_day_ok (Z.of_nat k) true) (seq 0 366) = true.
Proof. vm_compute. reflexivity. Qed.

Lemma month_and_day_ok (r : Z) (leap : bool) :
  0 <= r < 365 + b2z leap -> month_day_ok r leap = true.
Proof.
  intros H. pose proof month_day_table as T.
  apply andb_true_iff in T. destruct T as [T0 T1].
  rewrite forallb_forall in T0, T1.
  replace r with (Z.of_nat (Z.to_nat r)) by lia.
  destruct leap; [apply T1 | apply T0]; apply in_seq; cbn [b2z] in H; lia.
Qed.

Lemma year_cycles (n0 : Z) :
  0 <= n0 ->
  let n400 := n0 / DI400Y in
  let r400 := n0 mod DI400Y in
  let n100 := r400 / DI100Y in
  let r100 := r400 mod DI100Y in
  let n4 := r100 / DI4Y in
  let r4 := r100 mod DI4Y in
  let n1 := r4 / 365 in
  let r1 := r4 mod 365 in
  let y := n400 * 400 + 1 + (n100 * 100 + n4 * 4 + n1) in
  if (n1 =? 4) || (n100 =? 4) then
    days_before_year (y - 1) = n0 - 365 /\ isleap (y - 1) = true /\ 1 <= y - 1
  else
    days_before_year y = n0 - r1
    /\ isleap y = (n1 =? 3) && (negb (n4 =? 24) || (n100 =? 3))
    /\ 0 <= r1 < 365 /\ 1 <= y.
Proof.
  intros H. cbv zeta. unfold DI400Y, DI100Y, DI4Y, days_before_year, isleap.
  destruct ((_ =? 4) || (_ =? 4)) eqn:E.
  - apply orb_true_iff in E. rewrite !Z.eqb_eq in E.
    repeat split; [ | apply andb_true_iff; split;
      [ apply Z.eqb_eq | apply orb_true_iff; rewrite negb_true_iff, Z.eqb_neq, Z.eqb_eq ] | ].
    all: Z.div_mod_to_equations; lia.
  - apply orb_false_iff in E. rewrite !Z.eqb_neq in E.
    split; [|split]; [Z.div_mod_to_equations; lia | | Z.div_mod_to_equations; lia].
    apply eq_true_iff_eq.
    rewrite !andb_true_iff, !orb_true_iff, !negb_true_iff, !Z.eqb_eq, !Z.eqb_neq.
    Z.div_mod_to_equations. lia.
Qed.

Lemma ord2ymd_ok (n : Z) :
  1 <= n ->
  let '(y, m, d) := ord2ymd n in
  ymd2ord y m d = n
  /\ 1 <= y /\ 1 <= m <= 12 /\ 1 <= d <= days_in_month y m
  /\ days_before_year y < n <= days_before_year y + days_in_year y.
Proof.
  intros H. unfold ord2ymd.
  pose proof (year_cycles (n - 1) ltac:(lia)) as C. cbv zeta in C.
  destruct ((_ =? 4) || (_ =? 4)).
  - destruct C as (D & L & Y). unfold ymd2ord, days_before_month, days_in_month, days_in_year.
    rewrite L, D.
    change (table DAYS_BEFORE_MONTH 12) with 334.
    change (table DAYS_IN_MONTH 12) with 31.
    change (2 <? 12) with true. change (12 =? 2) with false.
    cbn [andb b2z]. lia.
  - destruct C as (D & L & R & Y). rewrite <- L.
    set (r := ((n - 1) mod DI400Y mod DI100Y mod DI4Y) mod 365) in *.
    match goal with |- context [isleap ?yy] => set (y := yy) in * end.
    pose proof (month_and_day_ok r (isleap y)) as MD.
    unfold month_day_ok in MD.
    destruct (month_and_day r (isleap y)) as [m d].
    assert (Hr : 0 <= r < 365 + b2z (isleap y)) by (destruct (isleap y); cbn; lia).
    specialize (MD Hr). unfold between in MD.
    rewrite !andb_true_iff, !Z.leb_le, Z.eqb_eq in MD.
    unfold ymd2ord, days_before_month, days_in_month, days_in_year.
    rewrite D. lia.
Qed.

Lemma days_before_year_succ (y : Z) :
  days_before_year (y + 1) = days_before_year y + days_in_year y.
Proof.
  unfold days_before_year, days_in_year, isleap.
  destruct (Z.eqb_spec (y mod 4) 0), (Z.eqb_spec (y mod 100) 0),
           (Z.eqb_spec (y mod 400) 0); cbn [andb orb negb b2z];
    Z.div_mod_to_equations; lia.
Qed.

Lemma days_before_year_mono (y1 y2 : Z) :
  y1 <= y2 -> days_before_year y1 <= days_before_year y2.
Proof. unfold days_before_year. intros H. Z.div_mod_to_equations. lia. Qed.

Lemma days_in_year_bounds (y : Z) : 365 <= days_in_year y <= 366.
Proof. unfold days_in_year. destruct (isleap y); cbn; lia. Qed.

Lemma year_unique (y1 y2 n : Z) :
  days_before_year y1 < n <= days_before_year y1 + days_in_year y1 ->
  days_before_year y2 < n <= days_before_year y2 + days_in_year y2 ->
  y1 = y2.
Proof.
  intros H1 H2.
  destruct (Z.lt_trichotomy y1 y2) as [L|[E|L]]; [exfalso| exact E |exfalso].
  - pose proof (days_before_year_mono (y1 + 1) y2 ltac:(lia)) as M.
    rewrite days_before_year_succ in M. lia.
  - pose proof (days_before_year_mono (y2 + 1) y1 ltac:(lia)) as M.
    rewrite days_before_year_succ in M. lia.
Qed.

Lemma days_before_year_10000 : days_before_year 10000 = MAXORDINAL.
Proof. reflexivity. Qed.

(** The date of an ordinal within the range of [date]. *)
Lemma ord2ymd_range (n : Z) :
  1 <= n <= MAXORDINAL ->
  let '(y, m, d) := ord2ymd n in
  ymd2ord y m d = n
  /\ between MINYEAR y MAXYEAR && between 1 m 12
     && between 1 d (days_in_month y m) = true
  /\ days_before_year y < n <= days_before_year y + days_in_year y.
Proof.
  intros H. pose proof (ord2ymd_ok n ltac:(lia)) as K.
  destruct (ord2ymd n) as [[y m] d].
  destruct K as (E & Y & Mo & D & In).
  split; [exact E|]. split; [|exact In].
  assert (y <= 9999).
  { destruct (Z_le_gt_dec y 9999) as [L|G]; [exact L|exfalso].
    pose proof (days_before_year_mono 10000 y ltac:(lia)) as M.
    rewrite days_before_year_10000 in M. lia. }
  unfold between, MINYEAR, MAXYEAR.
  rewrite !andb_true_iff, !Z.leb_le. lia.
Qed.

(** The day [i] of year [y] lies in year [y]. *)
Lemma ord2ymd_in_year (y i : Z) :
  1 <= y -> 0 <= i < days_in_year y ->
  fst (fst (ord2ymd (ymd2ord y 1 1 + i))) = y.
Proof.
  intros Hy Hi.
  assert (E : ymd2ord y 1 1 = days_before_year y + 1).
  { unfold ymd2ord, days_before_month.
    change (table DAYS_BEFORE_MONTH 1) with 0. change (2 <? 1) with false.
    cbn [andb b2z]. lia. }
  assert (P : 0 <= days_before_year y).
  { pose proof (days_before_year_mono 1 y Hy) as M.
    change (days_before_year 1) with 0 in M. exact M. }
  pose proof (ord2ymd_ok (ymd2ord y 1 1 + i) ltac:(lia)) as K.
  destruct (ord2ymd (ymd2ord y 1 1 + i)) as [[y' m] d]. cbn [fst].
  destruct K as (_ & _ & _ & _ & In).
  apply (year_unique y' y (ymd2ord y 1 1 + i)); lia.
Qed.

(** ** Arithmetic on timestamps *)

Lemma valid_time_of_day (t : datetime) : valid_datetime t -> time_of_day_ok t.
Proof.
  unfold valid_datetime, fields_ok, time_of_day_ok, between.
  rewrite !andb_true_iff, !Z.leb_le. lia.
Qed.

Lemma valid_year (t : datetime) : valid_datetime t -> 1 <= year t <= 9999.
Proof.
  unfold valid_datetime, fields_ok, between, MINYEAR, MAXYEAR.
  rewrite !andb_true_iff, !Z.leb_le. lia.
Qed.

Lemma datetime_sub_instant (a b : datetime) :
  total_us (datetime_sub a b) = instant a - instant b.
Proof. unfold datetime_sub, instant. cbn [total_us]. lia. Qed.

Lemma total_seconds_us (d : timedelta) :
  total_seconds d = (IZR (total_us d) / IZR US_PER_SECOND)%R.
Proof.
  unfold total_seconds, td_days, td_seconds, td_microseconds.
  unfold US_PER_DAY, US_PER_SECOND. do 2 f_equal.
  Z.div_mod_to_equations. lia.
Qed.

(** The result of [datetime + timedelta], by its instant. *)
Lemma datetime_add_spec (t : datetime) (d : timedelta) :
  time_of_day_ok t ->
  let us := instant t + total_us d in
  if (US_PER_DAY <=? us) && (us <? (MAXORDINAL + 1) * US_PER_DAY) then
    exists t',
      datetime_add t d = Ok t'
      /\ instant t' = us /\ valid_datetime t'
      /\ (year t', month t', day t') = ord2ymd (us / US_PER_DAY)
      /\ (hour t' * 3600 + minute t' * 60 + second t') * US_PER_SECOND
         + microsecond t' = us mod US_PER_DAY
  else datetime_add t d = Raise OverflowError.
Proof.
  intros T. cbv zeta. unfold datetime_add.
  set (delta := td_add _ d).
  assert (E : total_us delta = instant t + total_us d).
  { unfold delta, td_add, instant. cbn [total_us]. lia. }
  unfold td_days, td_seconds, td_microseconds. rewrite E.
  set (us := instant t + total_us d) in *.
  assert (Hd : (0 <? us / US_PER_DAY) && (us / US_PER_DAY <=? MAXORDINAL)
               = (US_PER_DAY <=? us) && (us <? (MAXORDINAL + 1) * US_PER_DAY)).
  { apply eq_true_iff_eq.
    rewrite !andb_true_iff, !Z.ltb_lt, !Z.leb_le.
    unfold US_PER_DAY, US_PER_SECOND, MAXORDINAL.
    Z.div_mod_to_equations. lia. }
  rewrite Hd. destruct ((US_PER_DAY <=? us) && _) eqn:R; [|reflexivity].
  clear R. rename Hd into R. apply andb_true_iff in R.
  rewrite Z.ltb_lt, Z.leb_le in R.
  pose proof (ord2ymd_range (us / US_PER_DAY) ltac:(lia)) as K.
  destruct (ord2ymd (us / US_PER_DAY)) as [[y m] dd].
  destruct K as (O & V & _).
  eexists. split; [reflexivity|].
  unfold instant, toordinal, valid_datetime, fields_ok. cbn [year month day hour minute second microsecond].
  rewrite O, V. unfold between. rewrite !andb_true_iff, !Z.leb_le.
  unfold US_PER_DAY, US_PER_SECOND in *.
  repeat split; try (Z.div_mod_to_equations; lia).
Qed.

(** ** The predictor *)

Lemma for_each_sum {X : Type} (body : R -> X -> result R) (f : X -> R)
  (xs : list X) (acc : R) :
  (forall x a, In x xs -> body a x = Ok (a + f x)%R) ->
  for_each body xs acc = Ok (acc + Rsum (map f xs))%R.
Proof.
  revert acc. induction xs as [|x xs IH]; intros acc H; cbn [for_each map Rsum fold_right].
  - f_equal. lra.
  - rewrite (H x acc (or_introl eq_refl)). cbn [bind].
    rewrite IH by (intros; apply H; now right).
    f_equal. fold (Rsum (map f xs)). lra.
Qed.

Lemma subscript_nth {A : Type} (xs : list A) (i : nat) (d : A) :
  (i < length xs)%nat -> subscript xs i = Ok (nth i xs d).
Proof.
  intros H. unfold subscript.
  destruct (nth_error xs i) as [x|] eqn:E.
  - now rewrite (nth_error_nth _ _ d E).
  - apply nth_error_None in E. lia.
Qed.

Lemma subscript_out {A : Type} (xs : list A) (i : nat) :
  (length xs <= i)%nat -> subscript xs i = Raise IndexError.
Proof.
  intros H. unfold subscript.
  now rewrite (proj2 (nth_error_None xs i) H).
Qed.

Lemma py_div_ok (x y : R) : y <> 0%R -> py_div x y = Ok (x / y)%R.
Proof. intros H. unfold py_div. destruct (Req_dec_T y 0); [contradiction|reflexivity]. Qed.

Lemma py_div_zero (x : R) : py_div x 0 = Raise ZeroDivisionError.
Proof. unfold py_div. destruct (Req_dec_T 0 0); [reflexivity|contradiction]. Qed.

Lemma range_In (n : Z) (i : nat) : In i (range n) <-> (Z.of_nat i < n).
Proof. unfold range. rewrite in_seq. lia. Qed.

Lemma map_seq_nth {A C : Type} (g : A -> C) (l : list A) (d : A) :
  map (fun i => g (nth i l d)) (seq 0 (length l)) = map g l.
Proof.
  induction l as [|a l IH]; [reflexivity|].
  cbn [length seq map nth]. f_equal.
  rewrite <- seq_shift, map_map. exact IH.
Qed.

Lemma invariants_usable (self : TidePred) : invariants self -> usable self.
Proof.
  intros (N & P & C & S & _ & _ & Per). repeat split; try assumption.
  eapply Forall_impl; [|exact Per]. cbn. intros p Hp. lra.
Qed.

Lemma constituents_length (self : TidePred) :
  usable self ->
  length (constituents (parameter_set self)) = Z.to_nat (no_of_sub_tide self).
Proof.
  intros (N & P & C & S & _). unfold parameter_set. cbn [constituents].
  rewrite length_map, !length_combine. lia.
Qed.

Lemma constituents_nth (self : TidePred) (i : nat) :
  usable self -> Z.of_nat i < no_of_sub_tide self ->
  nth i (constituents (parameter_set self)) nil_constituent
  = mk_Constituent (nth i (tide_name (tp self)) [])
                   (nth i (sub_tide_period (tp self)) 0%R)
                   (nth i (cj (tp self)) 0%R)
                   (nth i (sj (tp self)) 0%R).
Proof.
  intros (N & P & C & S & _) Hi. unfold parameter_set. cbn [constituents].
  change nil_constituent
    with ((fun '(n, p, c, s) => mk_Constituent n p c s) ([], 0%R, 0%R, 0%R)).
  rewrite map_nth.
  assert (L1 : length (tide_name (tp self)) = length (sub_tide_period (tp self))) by lia.
  assert (L2 : length (combine (tide_name (tp self)) (sub_tide_period (tp self)))
               = length (cj (tp self))) by (rewrite length_combine; lia).
  assert (L3 : length (combine (combine (tide_name (tp self))
                                        (sub_tide_period (tp self))) (cj (tp self)))
               = length (sj (tp self))) by (rewrite !length_combine; lia).
  rewrite (combine_nth _ _ _ _ _ L3), (combine_nth _ _ _ _ _ L2),
    (combine_nth _ _ _ _ _ L1).
  reflexivity.
Qed.

Lemma h_tide_comp_spec (self : TidePred) (t : R) :
  usable self ->
  h_tide_comp self (no_of_sub_tide self) t
  = Ok (spec_height (parameter_set self) t).
Proof.
  intros I. unfold h_tide_comp, spec_height.
  pose proof I as (N & P & C & S & Per).
  rewrite (for_each_sum _
             (fun i => term t (nth i (constituents (parameter_set self))
                                   nil_constituent))).
  - unfold range. rewrite <- (constituents_length self I).
    rewrite (map_seq_nth (term t) _ nil_constituent). reflexivity.
  - intros i a Hi. apply range_In in Hi.
    rewrite (constituents_nth self i I Hi). unfold term.
    cbn [periodHours cosCoeff sinCoeff].
    rewrite (subscript_nth _ i 0%R) by lia. cbn [bind].
    rewrite py_div_ok.
    + cbn [bind]. rewrite (subscript_nth (cj _) i 0%R) by lia.
      rewrite (subscript_nth (sj _) i 0%R) by lia. reflexivity.
    + rewrite Forall_forall in Per. apply Per, nth_In. lia.
Qed.

Lemma instant_new_year (yr : Z) :
  instant (mk_datetime yr 1 1 0 0 0 0) = (days_before_year yr + 1) * US_PER_DAY.
Proof.
  unfold instant, toordinal, ymd2ord, days_before_month.
  cbn [year month day hour minute second microsecond].
  change (table DAYS_BEFORE_MONTH 1) with 0. change (2 <? 1) with false.
  cbn [andb b2z]. unfold US_PER_DAY. lia.
Qed.

Lemma days_before_year_range (yr : Z) :
  1 <= yr <= 9999 -> 0 <= days_before_year yr < MAXORDINAL - 364.
Proof.
  intros H.
  pose proof (days_before_year_mono 1 yr ltac:(lia)) as L.
  pose proof (days_before_year_mono yr 9999 ltac:(lia)) as U.
  change (days_before_year 1) with 0 in L.
  change (days_before_year 9999) with 3651694 in U.
  unfold MAXORDINAL. lia.
Qed.

Lemma time_of_day_midnight (y m d : Z) :
  time_of_day_ok (mk_datetime y m d 0 0 0 0).
Proof. unfold time_of_day_ok. cbn. lia. Qed.

(** [datetime(yr, 1, 1, 0, 0) - timedelta(hours=1)] for a year after the
    first. *)
Lemma yuan_dan_xt_ok (yr : Z) :
  2 <= yr <= 9999 ->
  exists xt,
    datetime_sub_timedelta (mk_datetime yr 1 1 0 0 0 0) (timedelta_of 0 1)
    = Ok xt
    /\ instant xt = instant (mk_datetime yr 1 1 0 0 0 0) - US_PER_HOUR.
Proof.
  intros H. unfold datetime_sub_timedelta.
  pose proof (datetime_add_spec (mk_datetime yr 1 1 0 0 0 0)
                (td_neg (timedelta_of 0 1))
                (time_of_day_midnight yr 1 1)) as A.
  cbv zeta in A. rewrite instant_new_year in *.
  pose proof (days_before_year_range yr ltac:(lia)) as Rg.
  pose proof (days_before_year_mono 2 yr ltac:(lia)) as L2.
  change (days_before_year 2) with 365 in L2.
  unfold td_neg, timedelta_of in *. cbn [total_us] in *.
  unfold US_PER_HOUR, US_PER_DAY, US_PER_SECOND, MAXORDINAL in *.
  match type of A with
  | if ?c then _ else _ => replace c with true in A
  end.
  - destruct A as (xt & E & I & _). exists xt. split; [exact E|]. lia.
  - symmetry. apply andb_true_iff. rewrite Z.leb_le, Z.ltb_lt. lia.
Qed.

(** The same subtraction in year 1 leaves the range of [datetime]. *)
Lemma yuan_dan_xt_overflow :
  datetime_sub_timedelta (mk_datetime 1 1 1 0 0 0 0) (timedelta_of 0 1)
  = Raise OverflowError.
Proof. reflexivity. Qed.

Lemma new_datetime_new_year (yr : Z) :
  1 <= yr <= 9999 ->
  new_datetime yr 1 1 0 0 0 0 = Ok (mk_datetime yr 1 1 0 0 0 0).
Proof.
  intros H. unfold new_datetime. cbn [forallb].
  replace (fits_c_int yr) with true.
  2:{ symmetry. unfold fits_c_int, between, C_INT_MIN, C_INT_MAX.
      apply andb_true_iff. rewrite !Z.leb_le. lia. }
  unfold fields_ok, between, MINYEAR, MAXYEAR.
  replace (1 <=? yr) with true by (symmetry; apply Z.leb_le; lia).
  replace (yr <=? 9999) with true by (symmetry; apply Z.leb_le; lia).
  reflexivity.
Qed.

(** Outside 1..9999 the constructor rejects the year: with [ValueError]
    when it fits a C [int], with [OverflowError] when it does not. *)
Lemma new_datetime_year_out_of_range (yr : Z) :
  yr < 1 \/ 9999 < yr ->
  new_datetime yr 1 1 0 0 0 0
  = Raise (if fits_c_int yr then ValueError else OverflowError).
Proof.
  intros H. unfold new_datetime. cbn [forallb].
  destruct (fits_c_int yr); [|reflexivity].
  change (fits_c_int 1) with true. change (fits_c_int 0) with true.
  cbn [andb]. unfold fields_ok, between, MINYEAR, MAXYEAR.
  destruct H as [H|H].
  - replace (1 <=? yr) with false by (symmetry; apply Z.leb_gt; lia).
    reflexivity.
  - replace (yr <=? 9999) with false by (symmetry; apply Z.leb_gt; lia).
    now rewrite andb_false_r.
Qed.

Lemma t0_spec (tb xt : datetime) :
  instant xt = instant (mk_datetime (year tb) 1 1 0 0 0 0) - US_PER_HOUR ->
  (total_seconds (datetime_sub tb xt) / 3600)%R = spec_t0 tb.
Proof.
  intros E. rewrite total_seconds_us, datetime_sub_instant, E.
  unfold spec_t0, US_PER_HOUR, US_PER_SECOND.
  rewrite (mult_IZR 3600 1000000). field.
Qed.

Lemma tidal_pred_ok (self : TidePred) (tb : datetime) :
  usable self -> valid_datetime tb -> 2 <= year tb ->
  tidal_pred self tb = Ok (spec_predict (parameter_set self) tb).
Proof.
  intros I V Y. pose proof (valid_year tb V) as Yr.
  unfold tidal_pred.
  rewrite new_datetime_new_year by lia. cbn [bind].
  destruct (yuan_dan_xt_ok (year tb) ltac:(lia)) as (xt & E & Ix).
  rewrite E. cbn [bind].
  rewrite (t0_spec tb xt Ix), (h_tide_comp_spec self _ I). cbn [bind].
  reflexivity.
Qed.

Lemma for_each_raise {A X : Type} (body : A -> X -> result A) (xs : list X)
  (acc : A) (e : exn) :
  for_each body xs acc = Raise e ->
  exists x a, In x xs /\ body a x = Raise e.
Proof.
  revert acc. induction xs as [|x xs IH]; intros acc H; cbn [for_each] in H.
  - discriminate.
  - destruct (body acc x) as [a'|e'] eqn:B; cbn [bind] in H.
    + destruct (IH a' H) as (x' & a & In' & B').
      exists x', a. split; [now right|exact B'].
    + injection H as ->. exists x, acc. split; [now left|exact B].
Qed.

Lemma subscript_raise {A : Type} (xs : list A) (i : nat) (e : exn) :
  subscript xs i = Raise e -> e = IndexError /\ (length xs <= i)%nat.
Proof.
  unfold subscript. destruct (nth_error xs i) eqn:E; [discriminate|].
  intros H. injection H as <-. split; [reflexivity|].
  now apply nth_error_None.
Qed.

Lemma subscript_Ok {A : Type} (xs : list A) (i : nat) (x : A) :
  subscript xs i = Ok x -> nth_error xs i = Some x.
Proof.
  unfold subscript. destruct (nth_error xs i); [|discriminate].
  now intros [= ->].
Qed.

Lemma py_div_raise (x y : R) (e : exn) :
  py_div x y = Raise e -> e = ZeroDivisionError /\ y = 0%R.
Proof.
  unfold py_div. destruct (Req_dec_T y 0); [|discriminate].
  intros [= <-]. now split.
Qed.

(** How [h_tide_comp] can fail. *)
Lemma h_tide_comp_raise (self : TidePred) (m : Z) (t : R) (e : exn) :
  h_tide_comp self m t = Raise e ->
  (e = IndexError
   /\ exists i, Z.of_nat i < m
        /\ (length (sub_tide_period (tp self)) <= i
            \/ length (cj (tp self)) <= i
            \/ length (sj (tp self)) <= i)%nat)
  \/ (e = ZeroDivisionError
      /\ exists i, Z.of_nat i < m
           /\ nth_error (sub_tide_period (tp self)) i = Some 0%R).
Proof.
  intros H. apply for_each_raise in H. destruct H as (i & a & In' & B).
  apply range_In in In'.
  destruct (subscript (sub_tide_period (tp self)) i) as [p|e1] eqn:E1;
    cbn [bind] in B.
  2:{ injection B as ->. apply subscript_raise in E1. destruct E1 as [-> L].
      left. split; [reflexivity|]. exists i. tauto. }
  destruct (py_div _ p) as [angle|e2] eqn:E2; cbn [bind] in B.
  2:{ injection B as ->. apply py_div_raise in E2. destruct E2 as [-> ->].
      right. split; [reflexivity|]. exists i. split; [exact In'|].
      now apply subscript_Ok. }
  destruct (subscript (cj (tp self)) i) as [c|e3] eqn:E3; cbn [bind] in B.
  2:{ injection B as ->. apply subscript_raise in E3. destruct E3 as [-> L].
      left. split; [reflexivity|]. exists i. tauto. }
  destruct (subscript (sj (tp self)) i) as [s|e4] eqn:E4; cbn [bind] in B.
  2:{ injection B as ->. apply subscript_raise in E4. destruct E4 as [-> L].
      left. split; [reflexivity|]. exists i. tauto. }
  discriminate.
Qed.

Lemma tidal_pred_year_1 (self : TidePred) (tb : datetime) :
  year tb = 1 -> tidal_pred self tb = Raise OverflowError.
Proof.
  intros Y. unfold tidal_pred. rewrite Y.
  rewrite new_datetime_new_year by lia. cbn [bind].
  rewrite yuan_dan_xt_overflow. reflexivity.
Qed.

Lemma tidal_pred_raise (self : TidePred) (tb : datetime) (e : exn) :
  valid_datetime tb ->
  tidal_pred self tb = Raise e ->
  (e = OverflowError /\ year tb = 1)
  \/ (e = IndexError
      /\ exists i, Z.of_nat i < no_of_sub_tide self
           /\ (length (sub_tide_period (tp self)) <= i
               \/ length (cj (tp self)) <= i
               \/ length (sj (tp self)) <= i)%nat)
  \/ (e = ZeroDivisionError
      /\ exists i, Z.of_nat i < no_of_sub_tide self
           /\ nth_error (sub_tide_period (tp self)) i = Some 0%R).
Proof.
  intros V H. pose proof (valid_year tb V) as Yr.
  destruct (Z.eq_dec (year tb) 1) as [Y1|Y1].
  - rewrite (tidal_pred_year_1 self tb Y1) in H. injection H as <-.
    left. now split.
  - right. unfold tidal_pred in H.
    rewrite new_datetime_new_year in H by lia. cbn [bind] in H.
    destruct (yuan_dan_xt_ok (year tb) ltac:(lia)) as (xt & E & _).
    rewrite E in H. cbn [bind] in H.
    destruct (h_tide_comp _ _ _) as [h|e'] eqn:Hc; cbn [bind] in H;
      [discriminate|].
    injection H as ->. exact (h_tide_comp_raise _ _ _ _ Hc).
Qed.

(** ** The annual grid *)

Lemma for_each_append {X C : Type} (body : list C -> X -> result (list C))
  (g : X -> C) (xs : list X) (acc : list C) :
  (forall x a, In x xs -> body a x = Ok (a ++ [g x])) ->
  for_each body xs acc = Ok (acc ++ map g xs).
Proof.
  revert acc. induction xs as [|x xs IH]; intros acc H; cbn [for_each map].
  - now rewrite app_nil_r.
  - rewrite (H x acc (or_introl eq_refl)). cbn [bind].
    rewrite IH by (intros; apply H; now right).
    now rewrite <- app_assoc.
Qed.

Lemma store_middle {C : Type} (pre rest : list C) (old v : C) :
  store (pre ++ old :: rest) (length pre) v = pre ++ v :: rest.
Proof. induction pre as [|p pre IH]; cbn; [reflexivity|now rewrite IH]. Qed.

Lemma for_each_store_from {C : Type} (body : list C -> nat -> result (list C))
  (g : nat -> C) (m k : nat) (rest : list C) :
  length rest = m ->
  (forall j stage, (j < k + m)%nat -> body stage j = Ok (store stage j (g j))) ->
  for_each body (seq k m) (map g (seq 0 k) ++ rest)
  = Ok (map g (seq 0 (k + m))).
Proof.
  revert k rest. induction m as [|m IH]; intros k rest L H.
  - destruct rest; [|discriminate]. cbn [seq for_each].
    now rewrite app_nil_r, Nat.add_0_r.
  - destruct rest as [|old rest]; [discriminate|]. cbn [seq for_each].
    rewrite H by lia. cbn [bind].
    pose proof (store_middle (map g (seq 0 k)) rest old (g k)) as St.
    rewrite length_map, length_seq in St. rewrite St.
    replace (map g (seq 0 k) ++ g k :: rest)
      with (map g (seq 0 (S k)) ++ rest)
      by (rewrite seq_S, map_app, <- app_assoc; reflexivity).
    rewrite IH.
    + now rewrite Nat.add_succ_r.
    + cbn in L. lia.
    + intros. apply H. lia.
Qed.

Lemma for_each_store {C : Type} (body : list C -> nat -> result (list C))
  (g : nat -> C) (init : list C) :
  (forall j stage, (j < length init)%nat ->
                   body stage j = Ok (store stage j (g j))) ->
  for_each body (seq 0 (length init)) init
  = Ok (map g (seq 0 (length init))).
Proof.
  intros H.
  exact (for_each_store_from body g (length init) 0 init eq_refl H).
Qed.

Lemma ymd2ord_new_year (yr : Z) : ymd2ord yr 1 1 = days_before_year yr + 1.
Proof.
  unfold ymd2ord, days_before_month.
  change (table DAYS_BEFORE_MONTH 1) with 0. change (2 <? 1) with false.
  cbn [andb b2z]. lia.
Qed.

Lemma days_in_year_spec (yr : Z) : days_in_year yr = spec_days_in_year yr.
Proof. rewrite spec_days_isleap. unfold days_in_year. now destruct (isleap yr). Qed.

(** What [grid_time] denotes. *)
Lemma grid_time_spec (yr : Z) (d h : nat) :
  1 <= yr <= 9999 -> Z.of_nat d < days_in_year yr -> (h < 24)%nat ->
  valid_datetime (grid_time yr d h)
  /\ year (grid_time yr d h) = yr
  /\ toordinal (grid_time yr d h) = ymd2ord yr 1 1 + Z.of_nat d
  /\ instant (grid_time yr d h)
     = instant (mk_datetime yr 1 1 0 0 0 0)
       + Z.of_nat d * US_PER_DAY + Z.of_nat h * US_PER_HOUR.
Proof.
  intros Y D H.
  pose proof (days_before_year_range yr Y) as Rg.
  pose proof (days_before_year_mono (yr + 1) 10000 ltac:(lia)) as Up.
  rewrite days_before_year_succ, days_before_year_10000 in Up.
  pose proof (ord2ymd_in_year yr (Z.of_nat d) ltac:(lia) ltac:(lia)) as InY.
  pose proof (ord2ymd_range (ymd2ord yr 1 1 + Z.of_nat d)) as K.
  rewrite instant_new_year. unfold grid_time, instant, toordinal.
  rewrite ymd2ord_new_year in *.
  destruct (ord2ymd (days_before_year yr + 1 + Z.of_nat d)) as [[y m] dd].
  cbn [fst] in InY. subst y.
  destruct (K ltac:(lia)) as (O & V & _).
  cbn [year month day hour minute second microsecond].
  unfold valid_datetime, fields_ok.
  cbn [year month day hour minute second microsecond].
  rewrite V, O. unfold between, US_PER_DAY, US_PER_HOUR, US_PER_SECOND.
  split; [|split; [reflexivity|split; [reflexivity|lia]]].
  rewrite !andb_true_iff, !Z.leb_le. lia.
Qed.

Lemma datetime_eq (a b : datetime) :
  time_of_day_ok a -> time_of_day_ok b ->
  (year a, month a, day a) = (year b, month b, day b) ->
  (hour a * 3600 + minute a * 60 + second a) * US_PER_SECOND + microsecond a
  = (hour b * 3600 + minute b * 60 + second b) * US_PER_SECOND + microsecond b ->
  a = b.
Proof.
  destruct a, b. unfold time_of_day_ok, US_PER_SECOND. cbn.
  intros A Bn [= -> -> ->] E.
  assert (hour0 = hour1 /\ minute0 = minute1 /\ second0 = second1
          /\ microsecond0 = microsecond1) as (-> & -> & -> & ->) by lia.
  reflexivity.
Qed.

Lemma grid_time_time_of_day (yr : Z) (d h : nat) :
  (h < 24)%nat -> time_of_day_ok (grid_time yr d h).
Proof.
  intros H. unfold grid_time. destruct (ord2ymd _) as [[y m] dd].
  unfold time_of_day_ok. cbn. lia.
Qed.

(** [tb + timedelta(days=i)] and then [+ timedelta(hours=j)]. *)
Lemma datetime_add_grid (yr : Z) (d h j : nat) :
  1 <= yr <= 9999 -> Z.of_nat d < days_in_year yr -> (h + j < 24)%nat ->
  datetime_add (grid_time yr d h) (timedelta_of 0 (Z.of_nat j))
  = Ok (grid_time yr d (h + j)).
Proof.
  intros Y D H.
  destruct (grid_time_spec yr d h Y D ltac:(lia)) as (V & _ & O & I).
  destruct (grid_time_spec yr d (h + j) Y D H) as (V' & _ & O' & I').
  pose proof (datetime_add_spec (grid_time yr d h)
                (timedelta_of 0 (Z.of_nat j))
                (grid_time_time_of_day yr d h ltac:(lia))) as A.
  cbv zeta in A. rewrite I in A. rewrite instant_new_year in *.
  pose proof (days_before_year_range yr Y) as Rg.
  pose proof (days_before_year_mono (yr + 1) 10000 ltac:(lia)) as Up.
  rewrite days_before_year_succ, days_before_year_10000 in Up.
  unfold timedelta_of in *. cbn [total_us] in A.
  set (us := _ + _ + _ + _) in A.
  assert (Eus : us = (days_before_year yr + 1 + Z.of_nat d) * US_PER_DAY
                     + Z.of_nat (h + j) * US_PER_HOUR).
  { unfold us, US_PER_DAY, US_PER_HOUR, US_PER_SECOND. lia. }
  assert (Q : us / US_PER_DAY = days_before_year yr + 1 + Z.of_nat d
              /\ us mod US_PER_DAY = Z.of_nat (h + j) * US_PER_HOUR).
  { rewrite Eus. unfold US_PER_DAY, US_PER_HOUR, US_PER_SECOND.
    Z.div_mod_to_equations. lia. }
  destruct Q as [Qd Qm].
  replace ((US_PER_DAY <=? us) && (us <? (MAXORDINAL + 1) * US_PER_DAY))
    with true in A.
  2:{ symmetry. apply andb_true_iff. rewrite Z.leb_le, Z.ltb_lt, Eus.
      unfold US_PER_DAY, US_PER_HOUR, US_PER_SECOND, MAXORDINAL in *. lia. }
  destruct A as (t' & E & _ & Vt & F & T).
  rewrite E. f_equal.
  apply datetime_eq.
  - now apply valid_time_of_day.
  - apply grid_time_time_of_day. exact H.
  - rewrite F, Qd. unfold grid_time. rewrite ymd2ord_new_year.
    destruct (ord2ymd (days_before_year yr + 1 + Z.of_nat d)) as [[y m] dd].
    reflexivity.
  - rewrite T, Qm. unfold grid_time.
    destruct (ord2ymd (ymd2ord yr 1 1 + Z.of_nat d)) as [[y m] dd].
    cbn [hour minute second microsecond].
    unfold US_PER_HOUR, US_PER_SECOND. lia.
Qed.

Lemma datetime_add_day (yr : Z) (d : nat) :
  1 <= yr <= 9999 -> Z.of_nat d < days_in_year yr ->
  datetime_add (mk_datetime yr 1 1 0 0 0 0) (timedelta_of (Z.of_nat d) 0)
  = Ok (grid_time yr d 0).
Proof.
  intros Y D.
  destruct (grid_time_spec yr d 0 Y D ltac:(lia)) as (V' & _ & O' & I').
  pose proof (datetime_add_spec (mk_datetime yr 1 1 0 0 0 0)
                (timedelta_of (Z.of_nat d) 0)
                (time_of_day_midnight yr 1 1)) as A.
  cbv zeta in A. rewrite instant_new_year in *.
  pose proof (days_before_year_range yr Y) as Rg.
  pose proof (days_before_year_mono (yr + 1) 10000 ltac:(lia)) as Up.
  rewrite days_before_year_succ, days_before_year_10000 in Up.
  unfold timedelta_of in *. cbn [total_us] in A.
  set (us := _ + _) in A.
  assert (Eus : us = (days_before_year yr + 1 + Z.of_nat d) * US_PER_DAY).
  { unfold us, US_PER_DAY, US_PER_SECOND. lia. }
  assert (Q : us / US_PER_DAY = days_before_year yr + 1 + Z.of_nat d
              /\ us mod US_PER_DAY = 0).
  { rewrite Eus. unfold US_PER_DAY, US_PER_SECOND.
    Z.div_mod_to_equations. lia. }
  destruct Q as [Qd Qm].
  replace ((US_PER_DAY <=? us) && (us <? (MAXORDINAL + 1) * US_PER_DAY))
    with true in A.
  2:{ symmetry. apply andb_true_iff. rewrite Z.leb_le, Z.ltb_lt, Eus.
      unfold US_PER_DAY, US_PER_SECOND, MAXORDINAL in *. lia. }
  destruct A as (t' & E & _ & Vt & F & T).
  rewrite E. f_equal.
  apply datetime_eq.
  - now apply valid_time_of_day.
  - apply grid_time_time_of_day. lia.
  - rewrite F, Qd. unfold grid_time. rewrite ymd2ord_new_year.
    destruct (ord2ymd (days_before_year yr + 1 + Z.of_nat d)) as [[y m] dd].
    reflexivity.
  - rewrite T, Qm. unfold grid_time.
    destruct (ord2ymd (ymd2ord yr 1 1 + Z.of_nat d)) as [[y m] dd].
    reflexivity.
Qed.

Lemma generate_hourly_report_ok (self : HourlyReport) (yr : Z) :
  usable (tide self) -> 2 <= yr <= 9999 ->
  generate_hourly_report self yr
  = Ok (map (fun d =>
               map (fun h =>
                      spec_predict (parameter_set (tide self))
                                   (grid_time yr d h))
                   (seq 0 24))
            (seq 0 (Z.to_nat (days_in_year yr)))).
Proof.
  intros I Y. unfold generate_hourly_report.
  rewrite new_datetime_new_year by lia. cbn [bind].
  replace (if isleap yr then 366 else 365) with (days_in_year yr)
    by (unfold days_in_year; now destruct (isleap yr)).
  unfold range.
  rewrite (for_each_append _
             (fun d => map (fun h => spec_predict (parameter_set (tide self))
                                                  (grid_time yr d h))
                           (seq 0 24))); [reflexivity|].
  intros d report Hd. apply in_seq in Hd.
  assert (D : Z.of_nat d < days_in_year yr) by lia.
  rewrite datetime_add_day by (lia || exact D). cbn [bind].
  change (Z.to_nat 24) with (length (repeat 0%R 24)).
  rewrite (for_each_store _
             (fun h => spec_predict (parameter_set (tide self))
                                    (grid_time yr d h))).
  - rewrite repeat_length. reflexivity.
  - intros j stage Hj. rewrite repeat_length in Hj.
    rewrite (datetime_add_grid yr d 0 j) by (lia || exact D). cbn [bind].
    cbn [Nat.add].
    destruct (grid_time_spec yr d j ltac:(lia) D Hj) as (V & Yg & _).
    rewrite tidal_pred_ok; [reflexivity|exact I|exact V|lia].
Qed.

Lemma generate_hourly_report_year_1 (self : HourlyReport) :
  generate_hourly_report self 1 = Raise OverflowError.
Proof.
  unfold generate_hourly_report. cbn [new_datetime fields_ok bind].
  change (new_datetime 1 1 1 0 0 0 0) with (Ok (mk_datetime 1 1 1 0 0 0 0)).
  cbn [bind]. change (isleap 1) with false. cbv iota.
  change (range 365) with (0%nat :: seq 1 364). cbn [for_each].
  change (datetime_add (mk_datetime 1 1 1 0 0 0 0) (timedelta_of (Z.of_nat 0) 0))
    with (Ok (mk_datetime 1 1 1 0 0 0 0)).
  cbn [bind]. change (range 24) with (0%nat :: seq 1 23). cbn [for_each].
  change (datetime_add (mk_datetime 1 1 1 0 0 0 0) (timedelta_of 0 (Z.of_nat 0)))
    with (Ok (mk_datetime 1 1 1 0 0 0 0)).
  cbn [bind]. rewrite tidal_pred_year_1 by reflexivity. reflexivity.
Qed.

(** For a year outside 1..9999 the generator stops at [datetime(year, 1, 1)],
    with the exception the constructor raises. *)
Lemma generate_hourly_report_year_out_of_range (self : HourlyReport)
  (yr : Z) :
  yr < 1 \/ 9999 < yr ->
  generate_hourly_report self yr
  = Raise (if fits_c_int yr then ValueError else OverflowError).
Proof.
  intros H. unfold generate_hourly_report.
  now rewrite (new_datetime_year_out_of_range yr H).
Qed.

(** ** The accuracy metric *)

Lemma fold_left_Rplus (xs : list R) (a : R) :
  fold_left Rplus xs a = (a + Rsum xs)%R.
Proof.
  revert a. induction xs as [|x xs IH]; intros a; cbn [fold_left Rsum fold_right].
  - lra.
  - rewrite IH. fold (Rsum xs). lra.
Qed.

Lemma py_sum_Rsum (xs : list R) : py_sum xs = Rsum xs.
Proof. unfold py_sum. rewrite fold_left_Rplus. lra. Qed.

Lemma Rsum_nonneg (xs : list R) :
  Forall (fun x => 0 <= x)%R xs -> (0 <= Rsum xs)%R.
Proof.
  induction 1 as [|x xs Hx _ IH]; cbn [Rsum fold_right]; [lra|].
  fold (Rsum xs). lra.
Qed.

Lemma squared_errors_spec (pairs : list (R * R)) :
  map (fun '(o, p) => ((p - o) ^ 2)%R) pairs
  = map (fun op => Rsqr (snd op - fst op)) pairs.
Proof.
  apply map_ext. intros [o p]. cbn [fst snd]. unfold Rsqr. ring.
Qed.

Lemma squared_errors_nonneg (pairs : list (R * R)) :
  Forall (fun x => 0 <= x)%R (map (fun op => Rsqr (snd op - fst op)) pairs).
Proof.
  apply Forall_forall. intros x Hx. apply in_map_iff in Hx.
  destruct Hx as (op & <- & _). apply Rle_0_sqr.
Qed.

Lemma calculate_rmse_spec (observed predicted : list R) :
  calculate_rmse observed predicted
  = Ok (spec_rmse (combine observed predicted)).
Proof.
  unfold calculate_rmse. rewrite squared_errors_spec.
  destruct (combine observed predicted) as [|op pairs] eqn:E; [reflexivity|].
  set (sq := map _ (op :: pairs)).
  assert (L : length sq = length (op :: pairs)) by apply length_map.
  change (nonempty sq) with true. cbn [negb].
  rewrite py_div_ok.
  - cbn [bind]. unfold math_sqrt.
    destruct (Rlt_dec _ 0) as [Neg|_].
    + exfalso. rewrite py_sum_Rsum in Neg.
      pose proof (Rsum_nonneg sq (squared_errors_nonneg _)) as P.
      assert (0 < INR (length sq))%R by (rewrite L; apply lt_0_INR; cbn; lia).
      assert (0 <= Rsum sq / INR (length sq))%R.
      { apply Rmult_le_pos; [exact P|]. apply Rlt_le, Rinv_0_lt_compat. assumption. }
      lra.
    + unfold spec_rmse. rewrite py_sum_Rsum, L. reflexivity.
  - rewrite L. apply not_0_INR. cbn. lia.
Qed.

Lemma Rsum_zero (xs : list R) : Forall (fun x => x = 0%R) xs -> Rsum xs = 0%R.
Proof.
  induction 1 as [|x xs Hx _ IH]; cbn [Rsum fold_right]; [reflexivity|].
  fold (Rsum xs). lra.
Qed.

Lemma spec_rmse_identical (xs : list R) : spec_rmse (combine xs xs) = 0%R.
Proof.
  unfold spec_rmse. destruct (combine xs xs) as [|op pairs] eqn:E; [reflexivity|].
  rewrite Rsum_zero.
  - unfold Rdiv. rewrite Rmult_0_l. apply sqrt_0.
  - apply Forall_forall. intros x Hx. apply in_map_iff in Hx.
    destruct Hx as ([o p] & <- & In'). rewrite <- E in In'.
    assert (o = p).
    { clear E. induction xs as [|a xs IH]; cbn in In'; [contradiction|].
      destruct In' as [[= <- <-]|In']; [reflexivity|now apply IH]. }
    subst. cbn [fst snd]. unfold Rsqr. ring.
Qed.





(** ** The parameter loader *)

Section LoaderFacts.

Context {B : Builtins}.

Ltac run :=
  unfold bindM, ret, raise, get, set_param_year, set_h0,
    set_no_of_sub_tide, clear_lists, append_tide_name,
    append_sub_tide_period, append_cj, append_sj, assign, with_tp in *.

Lemma py_int_cases (s : pystr) (self : TidePred) :
  (exists z, int_of_str s = Some z /\ py_int s self = (self, Ok z))
  \/ (int_of_str s = None /\ py_int s self = (self, Raise ValueError)).
Proof.
  unfold py_int. destruct (int_of_str s) as [z|]; [left; eauto|right; auto].
Qed.

Lemma py_float_cases (s : pystr) (self : TidePred) :
  (exists x, float_of_str s = Some x /\ py_float s self = (self, Ok x))
  \/ (float_of_str s = None /\ py_float s self = (self, Raise ValueError)).
Proof.
  unfold py_float. destruct (float_of_str s) as [x|]; [left; eauto|right; auto].
Qed.

Lemma scan_headers_facts (lines rest : list pystr) (i : nat)
  (s s' : TidePred) (r : result Z) :
  scan_headers lines i rest s = (s', r) ->
  same_lists s s'
  /\ match r with
     | Ok dsi => dsi = -1 \/ 1 <= dsi
     | Raise e => e = ValueError
     end.
Proof.
  revert i s. induction rest as [|line rest IH]; intros i s H; cbn [scan_headers] in H.
  - injection H as <- <-. split; [now repeat split | now left].
  - destruct (contains OBSERVED_YEAR line).
    { destruct (nth_error lines (i + 1)) as [next|]; [|now apply IH in H].
      unfold bindM at 1 in H.
      destruct (py_int_cases (strip next) s) as [(y & _ & E)|(_ & E)];
        rewrite E in H.
      - run. apply IH in H. exact H.
      - injection H as <- <-. split; [now repeat split|reflexivity]. }
    destruct (contains COUNT_MARK line && contains MEAN_MARK line).
    { destruct (nth_error lines (i + 1)) as [next|]; [|now apply IH in H].
      destruct (2 <=? length (split (strip next)))%nat; [|now apply IH in H].
      unfold bindM at 1 in H.
      destruct (py_int_cases (part (split (strip next)) 0) s)
        as [(n & _ & E)|(_ & E)]; rewrite E in H.
      2:{ injection H as <- <-. split; [now repeat split|reflexivity]. }
      unfold bindM at 1, set_no_of_sub_tide at 1, assign at 1 in H.
      unfold bindM at 1 in H.
      match type of H with
      | context [py_float ?a ?b] =>
          destruct (py_float_cases a b) as [(h & _ & E')|(_ & E')];
            rewrite E' in H
      end.
      - run. apply IH in H. exact H.
      - injection H as <- <-. split; [now repeat split|reflexivity]. }
    destruct (contains CJ_MARK line && contains SJ_MARK line).
    { injection H as <- <-. split; [now repeat split|right; lia]. }
    now apply IH in H.
Qed.

(** One row either raises [ValueError], or is skipped, or adds one entry to
    each list. *)
Lemma read_row_facts (lines : list pystr) (dsi : Z) (i : nat)
  (s s' : TidePred) (r : result unit) :
  read_row lines dsi i s = (s', r) ->
  same_scalars s s'
  /\ match r with
     | Ok _ =>
         same_lists s s'
         \/ exists n x c v,
             tide_name (tp s') = tide_name (tp s) ++ [n]
             /\ sub_tide_period (tp s') = sub_tide_period (tp s) ++ [x]
             /\ cj (tp s') = cj (tp s) ++ [c]
             /\ sj (tp s') = sj (tp s) ++ [v]
     | Raise e => e = ValueError
     end.
Proof.
  unfold read_row. intros H.
  destruct (nth_error lines _) as [line|];
    [|injection H as <- <-; split; [now split|left; now repeat split]].
  destruct (6 <=? _)%nat;
    [|injection H as <- <-; split; [now split|left; now repeat split]].
  set (parts := filter nonempty (split_space (strip line))) in *.
  unfold bindM at 1, append_tide_name at 1, assign at 1 in H.
  unfold bindM at 1 in H.
  match type of H with
  | context [py_float ?a ?b] =>
      destruct (py_float_cases a b) as [(x & _ & E)|(_ & E)]; rewrite E in H
  end.
  2:{ injection H as <- <-. split; [now split|reflexivity]. }
  unfold bindM at 1, append_sub_tide_period at 1, assign at 1 in H.
  unfold bindM at 1 in H.
  match type of H with
  | context [py_float ?a ?b] =>
      destruct (py_float_cases a b) as [(c & _ & E1)|(_ & E1)]; rewrite E1 in H
  end.
  2:{ injection H as <- <-. split; [now split|reflexivity]. }
  unfold bindM at 1, append_cj at 1, assign at 1 in H.
  unfold bindM at 1 in H.
  match type of H with
  | context [py_float ?a ?b] =>
      destruct (py_float_cases a b) as [(v & _ & E2)|(_ & E2)]; rewrite E2 in H
  end.
  2:{ injection H as <- <-. split; [now split|reflexivity]. }
  unfold append_sj, assign in H. injection H as <- <-.
  split; [now split|]. right. exists (part parts 0), x, c, v.
  now repeat split.
Qed.

Lemma loaded_step (s s' : TidePred) (n : nat) :
  loaded s n ->
  (same_lists s s'
   \/ exists a x c v,
       tide_name (tp s') = tide_name (tp s) ++ [a]
       /\ sub_tide_period (tp s') = sub_tide_period (tp s) ++ [x]
       /\ cj (tp s') = cj (tp s) ++ [c]
       /\ sj (tp s') = sj (tp s) ++ [v]) ->
  exists n', loaded s' n' /\ (n <= n' <= S n)%nat.
Proof.
  intros (L1 & L2 & L3 & L4) [(E1 & E2 & E3 & E4)|(a & x & c & v & E1 & E2 & E3 & E4)];
    unfold loaded; rewrite E1, E2, E3, E4.
  - exists n. repeat split; lia.
  - exists (S n). rewrite !length_app. cbn [length].
    repeat split; lia.
Qed.

Lemma read_rows_facts (lines : list pystr) (dsi : Z) (xs : list nat)
  (s s' : TidePred) (r : result unit) (n : nat) :
  for_eachM (read_row lines dsi) xs s = (s', r) ->
  loaded s n ->
  same_scalars s s'
  /\ match r with
     | Ok _ => exists n', loaded s' n' /\ (n <= n' <= n + length xs)%nat
     | Raise e => e = ValueError
     end.
Proof.
  revert s n. induction xs as [|x xs IH]; intros s n H L; cbn [for_eachM] in H.
  - injection H as <- <-. split; [now split|]. exists n. split; [exact L|lia].
  - unfold bindM at 1 in H.
    destruct (read_row lines dsi x s) as [s1 [[]|e]] eqn:Row;
      apply read_row_facts in Row; destruct Row as [(Y1 & C1) Row].
    + destruct (loaded_step s s1 n L Row) as (n1 & L1 & B1).
      destruct (IH s1 n1 H L1) as [(Y2 & C2) K].
      split; [split; congruence|].
      destruct r as [u|e]; [|exact K].
      destruct K as (n' & L' & B'). exists n'. split; [exact L'|].
      cbn [length]. lia.
    + injection H as <- <-. split; [now split|exact Row].
Qed.

(** The state after the two loops of [read_tide_params]. *)
Lemma read_fields_facts (lines : list pystr) (s s' : TidePred)
  (r : result unit) :
  read_fields lines s = (s', r) ->
  match r with
  | Ok _ =>
      exists n, loaded s' n
                /\ (n = 0%nat \/ Z.of_nat n <= no_of_sub_tide s')
  | Raise e => e = ValueError
  end.
Proof.
  unfold read_fields. intros H.
  unfold bindM at 1, clear_lists at 1, assign at 1 in H.
  unfold bindM at 1 in H.
  destruct (scan_headers lines 0 lines _) as [s1 [dsi|e]] eqn:Scan;
    apply scan_headers_facts in Scan; destruct Scan as [(E1 & E2 & E3 & E4) Scan].
  2:{ injection H as <- <-. exact Scan. }
  unfold bindM at 1, get at 1 in H.
  assert (L : loaded s1 0).
  { unfold loaded, with_tp in *. cbn in E1, E2, E3, E4.
    rewrite E1, E2, E3, E4. now repeat split. }
  destruct (negb (dsi =? -1) && (no_of_sub_tide s1 >? 0)) eqn:G.
  - destruct (read_rows_facts _ _ _ _ _ _ 0%nat H L) as [(Y & C) K].
    destruct r as [u|e]; [|exact K].
    destruct K as (n & Ln & Bn). exists n. split; [exact Ln|]. right.
    unfold range in Bn. rewrite length_seq in Bn.
    apply andb_true_iff in G. destruct G as [_ G].
    apply Z.gtb_lt in G. rewrite C. lia.
  - injection H as <- <-. exists 0%nat. split; [exact L|now left].
Qed.

(** [parse_lines] returns 0 or raises [ValueError]. *)
Lemma parse_lines_facts (lines : list pystr) (s s' : TidePred)
  (r : result Z) :
  parse_lines lines s = (s', r) ->
  match r with
  | Ok code =>
      code = 0
      /\ read_fields lines s = (s', Ok tt)
      /\ param_year (tp s') <> 0
      /\ 0 < no_of_sub_tide s'
      /\ exists n, loaded s' n /\ 1 <= Z.of_nat n <= no_of_sub_tide s'
  | Raise e => e = ValueError
  end.
Proof.
  unfold parse_lines, bindM, validate. intros H.
  destruct (read_fields lines s) as [s1 [[]|e]] eqn:Rd;
    pose proof (read_fields_facts _ _ _ _ Rd) as F.
  2:{ injection H as <- <-. exact F. }
  unfold get, bindM in H.
  destruct (param_year (tp s1) =? 0) eqn:Y; cbn [orb] in H;
    [injection H as <- <-; reflexivity|].
  destruct (no_of_sub_tide s1 =? 0) eqn:C; cbn [orb] in H;
    [injection H as <- <-; reflexivity|].
  destruct (tide_name (tp s1)) as [|a names] eqn:N; cbn [nonempty negb] in H;
    injection H as <- <-; [reflexivity|].
  apply Z.eqb_neq in Y, C.
  destruct F as (n & L & Bn).
  assert (n <> 0%nat).
  { destruct L as (L1 & _). rewrite N in L1. cbn in L1. lia. }
  repeat split; try assumption; try lia.
  exists n. split; [exact L|lia].
Qed.

(** [read_tide_params] always returns, with 0 or with -1. *)
Lemma read_tide_params_cases (fs : filesystem) (fn : pystr) (s : TidePred) :
  (fs fn = None
   /\ read_tide_params fs fn s = (s, ([MsgFileNotFound fn], Ok (-1))))
  \/ (exists lines s',
        fs fn = Some lines
        /\ parse_lines lines s = (s', Raise ValueError)
        /\ read_tide_params fs fn s
           = (s', ([MsgParseError fn ValueError], Ok (-1))))
  \/ (exists lines s',
        fs fn = Some lines
        /\ parse_lines lines s = (s', Ok 0)
        /\ read_tide_params fs fn s = (s', ([], Ok 0))).
Proof.
  unfold read_tide_params. destruct (fs fn) as [lines|]; [|now left].
  right. destruct (parse_lines lines s) as [s' [code|e]] eqn:P;
    pose proof (parse_lines_facts _ _ _ _ P) as F.
  - destruct F as (-> & _). right. now exists lines, s'.
  - cbn beta iota in F. subst e. left. now exists lines, s'.
Qed.


(** One step of the first loop: it raises, goes on with the next line, or
    stops at the table header. *)
Lemma scan_headers_step (lines rest : list pystr) (i : nat) (line : pystr)
  (s : TidePred) :
  (exists s', scan_headers lines i (line :: rest) s = (s', Raise ValueError))
  \/ (exists s', scan_headers lines i (line :: rest) s
                 = scan_headers lines (S i) rest s')
  \/ (is_table_header line = true
      /\ scan_headers lines i (line :: rest) s = (s, Ok (Z.of_nat i + 1))).
Proof.
  remember (scan_headers lines i (line :: rest) s) as X eqn:EX.
  cbn [scan_headers] in EX. unfold is_table_header.
  destruct (contains OBSERVED_YEAR line).
  { destruct (nth_error lines (i + 1)) as [next|]; [|right; left; eauto].
    unfold bindM at 1 in EX.
    destruct (py_int_cases (strip next) s) as [(y & _ & E)|(_ & E)];
      rewrite E in EX.
    - right; left. run. subst X. eexists. reflexivity.
    - left. eauto. }
  destruct (contains COUNT_MARK line && contains MEAN_MARK line).
  { destruct (nth_error lines (i + 1)) as [next|]; [|right; left; eauto].
    destruct (2 <=? length (split (strip next)))%nat; [|right; left; eauto].
    unfold bindM at 1 in EX.
    destruct (py_int_cases (part (split (strip next)) 0) s)
      as [(n & _ & E)|(_ & E)]; rewrite E in EX; [|left; eauto].
    unfold bindM at 1, set_no_of_sub_tide at 1, assign at 1 in EX.
    unfold bindM at 1 in EX.
    match type of EX with
    | context [py_float ?a ?b] =>
        destruct (py_float_cases a b) as [(h & _ & E')|(_ & E')];
          rewrite E' in EX
    end.
    - right; left. run. subst X. eexists. reflexivity.
    - left. eauto. }
  destruct (contains CJ_MARK line && contains SJ_MARK line).
  - right; right. now split.
  - right; left. eauto.
Qed.

(** At a header line whose field is not a numeral the first loop raises. *)
Lemma scan_headers_fails_here (lines rest : list pystr) (i : nat)
  (line next : pystr) (s : TidePred) :
  nth_error lines (i + 1) = Some next ->
  header_conversion_fails line next ->
  exists s', scan_headers lines i (line :: rest) s = (s', Raise ValueError).
Proof.
  intros Nx [(Y & F)|(Y & CM & L & F)]; cbn [scan_headers]; rewrite Y, Nx.
  - unfold bindM. destruct (py_int_cases (strip next) s) as [(y & E & _)|(_ & E)];
      [congruence|]. rewrite E. eauto.
  - rewrite CM. replace (2 <=? _)%nat with true by (symmetry; now apply Nat.leb_le).
    unfold bindM at 1.
    destruct (py_int_cases (part (split (strip next)) 0) s)
      as [(n & En & E)|(_ & E)]; rewrite E; [|eauto].
    destruct F as [F|F]; [congruence|].
    unfold bindM at 1, set_no_of_sub_tide at 1, assign at 1.
    unfold bindM at 1.
    match goal with
    | |- context [py_float ?a ?b] =>
        destruct (py_float_cases a b) as [(h & Eh & _)|(_ & E')];
          [congruence|rewrite E'; eauto]
    end.
Qed.

Lemma scan_headers_fails (lines pre rest : list pystr) (j : nat)
  (line next : pystr) (s : TidePred) :
  lines = pre ++ rest ->
  nth_error rest j = Some line ->
  nth_error rest (S j) = Some next ->
  (forall k l, (k < j)%nat -> nth_error rest k = Some l ->
               is_table_header l = false) ->
  header_conversion_fails line next ->
  exists s', scan_headers lines (length pre) rest s = (s', Raise ValueError).
Proof.
  revert pre rest s. induction j as [|j IH]; intros pre rest s E Hl Hn Hk F.
  - destruct rest as [|l0 rest]; [discriminate|]. cbn in Hl. injection Hl as ->.
    apply (scan_headers_fails_here _ _ _ _ next); [|exact F].
    subst lines. rewrite nth_error_app2 by lia.
    replace (length pre + 1 - length pre)%nat with 1%nat by lia. exact Hn.
  - destruct rest as [|l0 rest]; [discriminate|].
    destruct (scan_headers_step lines rest (length pre) l0 s)
      as [K|[(s1 & K)|(T & _)]].
    + exact K.
    + rewrite K.
      replace (S (length pre)) with (length (pre ++ [l0]))
        by (rewrite length_app; cbn; lia).
      apply IH.
      * subst lines. now rewrite <- app_assoc.
      * exact Hl.
      * exact Hn.
      * intros k l Lt Nk. apply (Hk (S k) l); [lia|exact Nk].
      * exact F.
    + rewrite (Hk 0%nat l0) in T; [discriminate|lia|reflexivity].
Qed.

(** A row whose period, cosine or sine field is not a numeral raises. *)
Lemma read_row_fails (lines : list pystr) (dsi : Z) (i : nat) (line : pystr)
  (s : TidePred) :
  nth_error lines (Z.to_nat (dsi + Z.of_nat i)) = Some line ->
  row_conversion_fails line ->
  exists s', read_row lines dsi i s = (s', Raise ValueError).
Proof.
  intros Hl (L & F). unfold read_row. rewrite Hl.
  fold (row_fields line).
  replace (6 <=? _)%nat with true by (symmetry; now apply Nat.leb_le).
  unfold bindM at 1, append_tide_name at 1, assign at 1.
  unfold bindM at 1.
  match goal with
  | |- context [py_float ?a ?b] =>
      destruct (py_float_cases a b) as [(x & Ex & E)|(_ & E)]; rewrite E;
        [|eauto]
  end.
  unfold bindM at 1, append_sub_tide_period at 1, assign at 1.
  unfold bindM at 1.
  match goal with
  | |- context [py_float ?a ?b] =>
      destruct (py_float_cases a b) as [(c & Ec & E1)|(_ & E1)]; rewrite E1;
        [|eauto]
  end.
  unfold bindM at 1, append_cj at 1, assign at 1.
  unfold bindM at 1.
  match goal with
  | |- context [py_float ?a ?b] =>
      destruct (py_float_cases a b) as [(v & Ev & E2)|(_ & E2)]; rewrite E2;
        [|eauto]
  end.
  destruct F as [F|[F|F]]; congruence.
Qed.

(** A row of fewer than six fields is skipped. *)
Lemma read_row_skips (lines : list pystr) (dsi : Z) (i : nat) (line : pystr)
  (s : TidePred) :
  nth_error lines (Z.to_nat (dsi + Z.of_nat i)) = Some line ->
  (length (row_fields line) < 6)%nat ->
  read_row lines dsi i s = (s, Ok tt).
Proof.
  intros Hl L. unfold read_row. rewrite Hl. fold (row_fields line).
  replace (6 <=? _)%nat with false by (symmetry; apply Nat.leb_gt; exact L).
  reflexivity.
Qed.

Lemma read_rows_fail (lines : list pystr) (dsi : Z) (xs : list nat) (i : nat)
  (line : pystr) (s : TidePred) :
  In i xs ->
  nth_error lines (Z.to_nat (dsi + Z.of_nat i)) = Some line ->
  row_conversion_fails line ->
  exists s', for_eachM (read_row lines dsi) xs s = (s', Raise ValueError).
Proof.
  intros Hin Hl F. revert s.
  induction xs as [|x xs IH]; intros s; [contradiction|].
  cbn [for_eachM]. unfold bindM at 1.
  destruct (read_row lines dsi x s) as [s1 [[]|e]] eqn:Row.
  - destruct Hin as [->|Hin].
    + destruct (read_row_fails lines dsi i line s Hl F) as (s' & K).
      congruence.
    + exact (IH Hin s1).
  - apply read_row_facts in Row. destruct Row as [_ ->]. eauto.
Qed.

Lemma read_fields_raise_load (fs : filesystem) (fn : pystr)
  (lines : list pystr) (s s1 : TidePred) :
  fs fn = Some lines ->
  read_fields lines s = (s1, Raise ValueError) ->
  read_tide_params fs fn s = (s1, ([MsgParseError fn ValueError], Ok (-1))).
Proof.
  intros F Rd. unfold read_tide_params, parse_lines, bindM.
  now rewrite F, Rd.
Qed.

(** A header field that is not a numeral makes the load fail. *)
Lemma header_failure_load (fs : filesystem) (fn : pystr)
  (lines : list pystr) (i : nat) (line next : pystr) (s : TidePred) :
  fs fn = Some lines ->
  scanned lines i ->
  nth_error lines i = Some line ->
  nth_error lines (S i) = Some next ->
  header_conversion_fails line next ->
  exists s',
    read_tide_params fs fn s
    = (s', ([MsgParseError fn ValueError], Ok (-1))).
Proof.
  intros F Sc Hl Hn Fail.
  destruct (scan_headers_fails lines [] lines i line next
              (fst (clear_lists s)) eq_refl Hl Hn Sc Fail) as (s1 & K).
  exists s1. apply (read_fields_raise_load fs fn lines); [exact F|].
  unfold read_fields. unfold bindM at 1, clear_lists at 1, assign at 1.
  unfold bindM at 1. cbn [length] in K.
  unfold clear_lists, assign in K. cbn [fst] in K. now rewrite K.
Qed.

(** A reached row with a field that is not a numeral makes the load fail. *)
Lemma row_failure_load (fs : filesystem) (fn : pystr) (lines : list pystr)
  (s s1 : TidePred) (dsi : Z) (i : nat) (line : pystr) :
  fs fn = Some lines ->
  scan_headers lines 0 lines (fst (clear_lists s)) = (s1, Ok dsi) ->
  dsi <> -1 ->
  Z.of_nat i < no_of_sub_tide s1 ->
  nth_error lines (Z.to_nat (dsi + Z.of_nat i)) = Some line ->
  row_conversion_fails line ->
  exists s',
    read_tide_params fs fn s
    = (s', ([MsgParseError fn ValueError], Ok (-1))).
Proof.
  intros F Scan D I Hl Fail.
  assert (Hin : In i (range (no_of_sub_tide s1))) by (apply range_In; exact I).
  destruct (read_rows_fail lines dsi _ i line s1 Hin Hl Fail) as (s' & K).
  exists s'. apply (read_fields_raise_load fs fn lines); [exact F|].
  unfold read_fields. unfold bindM at 1, clear_lists at 1, assign at 1.
  unfold bindM at 1. unfold clear_lists, assign in Scan. cbn [fst] in Scan.
  rewrite Scan. unfold bindM at 1, get at 1.
  replace (negb (dsi =? -1) && (no_of_sub_tide s1 >? 0)) with true.
  - exact K.
  - symmetry. apply andb_true_iff. split.
    + apply negb_true_iff, Z.eqb_neq. exact D.
    + apply Z.gtb_lt. lia.
Qed.

(** The validation rejects a zero base year, a zero count and an empty
    name list. *)
Lemma validation_failure_load (fs : filesystem) (fn : pystr)
  (lines : list pystr) (s s1 : TidePred) :
  fs fn = Some lines ->
  read_fields lines s = (s1, Ok tt) ->
  param_year (tp s1) = 0 \/ no_of_sub_tide s1 = 0 \/ tide_name (tp s1) = [] ->
  read_tide_params fs fn s
  = (s1, ([MsgParseError fn ValueError], Ok (-1))).
Proof.
  intros F Rd V. unfold read_tide_params, parse_lines, bindM.
  rewrite F, Rd. unfold validate, bindM, get.
  replace ((param_year (tp s1) =? 0) || (no_of_sub_tide s1 =? 0)
           || negb (nonempty (tide_name (tp s1)))) with true; [reflexivity|].
  symmetry. rewrite !orb_true_iff, !Z.eqb_eq.
  destruct V as [V|[V|V]]; [tauto|tauto|]. right. now rewrite V.
Qed.


Lemma for_each_ok_all {A X : Type} (body : A -> X -> result A) (xs : list X)
  (acc r : A) :
  for_each body xs acc = Ok r ->
  forall x, In x xs -> exists a a', body a x = Ok a'.
Proof.
  revert acc. induction xs as [|x xs IH]; intros acc H y Hy; [contradiction|].
  cbn [for_each] in H.
  destruct (body acc x) as [a'|e] eqn:Bd; cbn [bind] in H; [|discriminate].
  destruct Hy as [<-|Hy]; [eauto|exact (IH a' H y Hy)].
Qed.

(** When [print_cj_sj] returns, every list holds [no_of_sub_tide] entries
    at least. *)
Lemma print_cj_sj_ok (self : TidePred) (rows : list (pystr * R * R * R))
  (i : nat) :
  print_cj_sj self = Ok rows ->
  Z.of_nat i < no_of_sub_tide self ->
  (i < length (tide_name (tp self)))%nat
  /\ (i < length (sub_tide_period (tp self)))%nat
  /\ (i < length (cj (tp self)))%nat
  /\ (i < length (sj (tp self)))%nat.
Proof.
  intros P I. unfold print_cj_sj in P.
  destruct (for_each_ok_all _ _ _ _ P i (proj2 (range_In _ i) I))
    as (a & a' & Bd).
  destruct (subscript (cj (tp self)) i) eqn:E1; cbn [bind] in Bd; [|discriminate].
  destruct (subscript (sj (tp self)) i) eqn:E2; cbn [bind] in Bd; [|discriminate].
  destruct (subscript (tide_name (tp self)) i) eqn:E3; cbn [bind] in Bd; [|discriminate].
  destruct (subscript (sub_tide_period (tp self)) i) eqn:E4; cbn [bind] in Bd; [|discriminate].
  apply subscript_Ok in E1, E2, E3, E4.
  repeat split; apply nth_error_Some; congruence.
Qed.

(** [init_report] returns -1 exactly when the load does, and otherwise 0
    with all lists of length [no_of_sub_tide]. *)
Lemma init_report_facts (fs : filesystem) (fn : pystr)
  (self self' : HourlyReport) (out : list message) (code : Z) :
  init_report fs fn self = (self', (out, Ok code)) ->
  (code = -1
   /\ snd (snd (read_tide_params fs fn (tide self))) = Ok (-1))
  \/ (code = 0
      /\ fst (read_tide_params fs fn (tide self)) = tide self'
      /\ snd (snd (read_tide_params fs fn (tide self))) = Ok 0
      /\ param_year (tp (tide self')) <> 0
      /\ 0 < no_of_sub_tide (tide self')
      /\ loaded (tide self') (Z.to_nat (no_of_sub_tide (tide self')))).
Proof.
  unfold init_report. intros H.
  destruct (read_tide_params_cases fs fn (tide self))
    as [(_ & E)|[(lines & s' & _ & _ & E)|(lines & s' & _ & P & E)]];
    rewrite E in *; cbn [fst snd] in *.
  - change (-1 =? -1) with true in H. cbv iota in H.
    injection H as <- <- <-. now left.
  - change (-1 =? -1) with true in H. cbv iota in H.
    injection H as <- <- <-. now left.
  - change (0 =? -1) with false in H. cbv iota in H.
    destruct (print_cj_sj s') as [rows|e] eqn:Pr; [|discriminate].
    injection H as <- <- <-. right. cbn [tide].
    apply parse_lines_facts in P.
    destruct P as (_ & _ & Y & C & n & L & Bn).
    repeat split; try assumption.
    all: pose proof (print_cj_sj_ok s' rows (Z.to_nat (no_of_sub_tide s') - 1) Pr
                       ltac:(lia)) as (P1 & P2 & P3 & P4);
      destruct L as (L1 & L2 & L3 & L4); lia.
Qed.

(** A failed load ends the run before any prediction. *)
Lemma main_exits (fs : filesystem) (fn : pystr) (yr : Z) :
  snd (snd (read_tide_params fs fn TidePred_init)) = Ok (-1) ->
  snd (main fs fn yr) = Exited.
Proof.
  intros H. unfold main.
  destruct (negb (nonempty fn) || negb (exists_ fs fn)); [reflexivity|].
  unfold init_report. cbn [tide HourlyReport_init].
  destruct (read_tide_params fs fn TidePred_init) as [t [out r]].
  cbn [snd] in H. subst r. reflexivity.
Qed.

(** The grid is generated only from a loaded parameter set whose lists all
    have [no_of_sub_tide] entries. *)
Lemma main_generated (fs : filesystem) (fn : pystr) (yr : Z)
  (r : result (list (list R))) :
  snd (main fs fn yr) = Generated r ->
  exists self out,
    init_report fs fn HourlyReport_init = (self, (out, Ok 0))
    /\ r = generate_hourly_report self yr.
Proof.
  unfold main.
  destruct (negb (nonempty fn) || negb (exists_ fs fn)); [discriminate|].
  destruct (init_report fs fn HourlyReport_init) as [self [out [code|e]]] eqn:I;
    [|discriminate].
  destruct (init_report_facts _ _ _ _ _ _ I) as [(-> & _)|(-> & _)].
  - discriminate.
  - cbn. intros [= <-]. now exists self, out.
Qed.

End LoaderFacts.

Section LoaderMore.

Context {B : Builtins}.

Lemma scan_headers_no_table (lines rest : list pystr) (i : nat)
  (s s' : TidePred) (dsi : Z) :
  (forall l, In l rest -> is_table_header l = false) ->
  scan_headers lines i rest s = (s', Ok dsi) -> dsi = -1.
Proof.
  revert i s. induction rest as [|line rest IH]; intros i s NoT H.
  - cbn in H. now injection H as _ <-.
  - destruct (scan_headers_step lines rest i line s)
      as [(s1 & K)|[(s1 & K)|(T & _)]].
    + rewrite K in H. discriminate.
    + rewrite K in H. apply (IH (S i) s1); [|exact H].
      intros l Hl. apply NoT. now right.
    + rewrite (NoT line (or_introl eq_refl)) in T. discriminate.
Qed.

(** Without a table header no row is read and the validation fails. *)
Lemma no_table_load_fails (fs : filesystem) (fn : pystr)
  (lines : list pystr) (s : TidePred) :
  fs fn = Some lines ->
  (forall l, In l lines -> is_table_header l = false) ->
  exists s',
    read_tide_params fs fn s
    = (s', ([MsgParseError fn ValueError], Ok (-1))).
Proof.
  intros F NoT.
  destruct (read_tide_params_cases fs fn s)
    as [(N & _)|[(lines' & s' & _ & _ & E)|(lines' & s' & F' & P & _)]].
  - congruence.
  - eauto.
  - exfalso. rewrite F in F'. injection F' as <-.
    apply parse_lines_facts in P.
    destruct P as (_ & Rd & _ & _ & n & (L1 & _) & Bn).
    unfold read_fields in Rd.
    unfold bindM at 1, clear_lists at 1, assign at 1 in Rd.
    unfold bindM at 1 in Rd.
    destruct (scan_headers lines 0 lines _) as [s1 [dsi|e]] eqn:Scan;
      [|discriminate].
    pose proof (scan_headers_no_table _ _ _ _ _ _ NoT Scan) as ->.
    apply scan_headers_facts in Scan. destruct Scan as [(E1 & _) _].
    unfold bindM, get in Rd. cbn [Z.eqb negb andb] in Rd.
    change (-1 =? -1) with true in Rd. cbn [negb andb] in Rd.
    injection Rd as <-. rewrite E1 in L1. cbn in L1. lia.
Qed.

End LoaderMore.

Lemma In_lstrip (s : pystr) (c : Z) : In c (lstrip s) -> In c s.
Proof.
  induction s as [|a s IH]; cbn [lstrip]; [tauto|].
  destruct (isspace a); [intros H; right; now apply IH|tauto].
Qed.

Lemma In_strip (s : pystr) (c : Z) : In c (strip s) -> In c s.
Proof.
  unfold strip, rstrip. intros H.
  apply In_lstrip. apply in_rev. apply In_lstrip. apply in_rev. exact H.
Qed.

Lemma pieces_no_separator (sep : Z -> bool) (s : pystr) :
  (forall c, In c s -> sep c = false) -> pieces sep s = [s].
Proof.
  induction s as [|a s IH]; intros H; cbn [pieces]; [reflexivity|].
  rewrite (H a (or_introl eq_refl)).
  rewrite IH by (intros c Hc; apply H; now right). reflexivity.
Qed.

Lemma pieces_no_separator_inside (sep : Z -> bool) (s p : pystr) :
  In p (pieces sep s) -> forall c, In c p -> sep c = false.
Proof.
  revert p. induction s as [|a s IH]; intros p Hp c Hc; cbn [pieces] in Hp.
  - destruct Hp as [<-|[]]. contradiction.
  - destruct (sep a) eqn:Sa.
    + destruct Hp as [<-|Hp]; [contradiction|exact (IH p Hp c Hc)].
    + destruct (pieces sep s) as [|q qs] eqn:Q.
      * destruct Hp as [<-|[]]. destruct Hc as [<-|[]]. exact Sa.
      * destruct Hp as [<-|Hp].
        -- destruct Hc as [<-|Hc]; [exact Sa|].
           exact (IH q (or_introl eq_refl) c Hc).
        -- exact (IH p (or_intror Hp) c Hc).
Qed.

(** The fields of a row are not empty and hold no space. *)
Lemma row_fields_shape (line f : pystr) :
  In f (row_fields line) -> f <> [] /\ ~ In 32 f.
Proof.
  unfold row_fields, split_space. intros H. apply filter_In in H.
  destruct H as [Hp Hn]. split.
  - intros ->. discriminate.
  - intros H32.
    pose proof (pieces_no_separator_inside _ _ _ Hp 32 H32) as K.
    discriminate.
Qed.

(** Only the space character separates the fields of a row. *)
Lemma row_fields_no_space (line : pystr) :
  (forall c, In c line -> c <> 32) -> (length (row_fields line) <= 1)%nat.
Proof.
  intros H. unfold row_fields, split_space.
  rewrite pieces_no_separator.
  - cbn [filter]. destruct (nonempty (strip line)); cbn; lia.
  - intros c Hc. apply Z.eqb_neq. apply H. now apply In_strip.
Qed.

(** * The claims of the specification *)

(** ** The year-alignment shift *)

Lemma hours_to_zero_one_year (ay : Z) :
  hours_to_zero ay (ay + 1) = IZR (24 * spec_days_in_year ay).
Proof.
  rewrite hours_to_zero_sum, py_range_cons by lia.
  rewrite py_range_empty by lia. cbn [map Zsum fold_right].
  f_equal. lia.
Qed.

Lemma hours_to_zero_from_2011 : hours_to_zero 2011 2012 = (24 * 365)%R.
Proof.
  change 2012 with (2011 + 1). rewrite hours_to_zero_one_year.
  change (spec_days_in_year 2011) with 365. now rewrite mult_IZR.
Qed.

(** C2, counterexample.  From 2011 to 2012 the summed year is 2011, which
    is not a leap year: the shift is 24 * 365 hours, not 24 * 366. *)
Lemma hours_to_zero_2011_2012 :
  hours_to_zero 2011 2012 = (24 * 365)%R
  /\ hours_to_zero 2011 2012 <> (24 * 366)%R.
Proof.
  split; [exact hours_to_zero_from_2011|].
  rewrite hours_to_zero_from_2011. lra.
Qed.

(** C2, as amended.  [hours_to_zero ay by] is 0 when [by <= ay]; when
    [by > ay] it is 24 times the sum over the years [ay <= y < by] of 366 for
    a leap year and 365 otherwise; it increases strictly with [by] beyond
    [ay]; across one year it is 24 * 365 when [ay] is not a leap year and
    24 * 366 when [ay] is one, so 24 * 365 from 2011 to 2012 and 24 * 366
    from 2012 to 2013. *)
Theorem hours_to_zero_properties :
  (forall y, spec_leap y <-> spec_days_in_year y = 366)
  /\ (forall y, ~ spec_leap y <-> spec_days_in_year y = 365)
  /\ (forall ay by_, by_ <= ay -> hours_to_zero ay by_ = 0%R)
  /\ (forall ay by_, ay < by_ ->
        hours_to_zero ay by_
        = IZR (24 * Zsum (map spec_days_in_year (py_range ay by_)))
        /\ forall y, In y (py_range ay by_) <-> ay <= y < by_)
  /\ (forall ay b1 b2, ay < b1 -> b1 < b2 ->
        (hours_to_zero ay b1 < hours_to_zero ay b2)%R)
  /\ (forall ay, ~ spec_leap ay -> hours_to_zero ay (ay + 1) = (24 * 365)%R)
  /\ (forall ay, spec_leap ay -> hours_to_zero ay (ay + 1) = (24 * 366)%R)
  /\ hours_to_zero 2011 2012 = (24 * 365)%R
  /\ hours_to_zero 2012 2013 = (24 * 366)%R.
Proof.
  assert (Leap : forall y, spec_leap y <-> spec_days_in_year y = 366).
  { intros y. rewrite <- isleap_spec, spec_days_isleap.
    destruct (isleap y); split; intros H; try reflexivity; easy. }
  assert (NoLeap : forall y, ~ spec_leap y <-> spec_days_in_year y = 365).
  { intros y. rewrite <- isleap_spec, spec_days_isleap.
    destruct (isleap y); split; intros H; try reflexivity; easy. }
  pose proof hours_to_zero_one_year as One.
  split; [exact Leap|]. split; [exact NoLeap|].
  split.
  { intros ay by_ H. rewrite hours_to_zero_sum, py_range_empty by lia.
    reflexivity. }
  split.
  { intros ay by_ _. split; [apply hours_to_zero_sum|apply In_py_range]. }
  split.
  { intros ay b1 b2 H1 H2. rewrite !hours_to_zero_sum. apply IZR_lt.
    pose proof (days_sum_mono ay b1 b2 ltac:(lia) ltac:(lia)). lia. }
  split.
  { intros ay H. rewrite One. apply NoLeap in H. now rewrite H, mult_IZR. }
  split.
  { intros ay H. rewrite One. apply Leap in H. now rewrite H, mult_IZR. }
  split; [exact hours_to_zero_from_2011|].
  change 2013 with (2012 + 1). rewrite One.
  change (spec_days_in_year 2012) with 366. now rewrite mult_IZR.
Qed.

Lemma hours_to_zero_properties_witness :
  2010 < 2013
  /\ hours_to_zero 2010 2013
     = IZR (24 * Zsum (map spec_days_in_year (py_range 2010 2013))).
Proof.
  destruct hours_to_zero_properties as (_ & _ & _ & S & _).
  split; [lia|]. exact (proj1 (S 2010 2013 ltac:(lia))).
Defined.

(** ** The accuracy metric *)

(** C9.  [calculate_rmse] returns the square root of the mean of the
    squared differences [predicted - observed] over the pairs; it returns 0
    when there is no pair, and 0 when the two sequences are identical. *)
Theorem calculate_rmse_formula :
  (forall observed predicted,
      calculate_rmse observed predicted
      = Ok (spec_rmse (combine observed predicted)))
  /\ (forall observed predicted,
        combine observed predicted = [] ->
        calculate_rmse observed predicted = Ok 0%R)
  /\ (forall xs, calculate_rmse xs xs = Ok 0%R).
Proof.
  split; [exact calculate_rmse_spec|]. split.
  - intros observed predicted E. now rewrite calculate_rmse_spec, E.
  - intros xs. now rewrite calculate_rmse_spec, spec_rmse_identical.
Qed.

Lemma calculate_rmse_formula_witness :
  combine [1%R; 2%R] ([] : list R) = []
  /\ calculate_rmse [1%R; 2%R] [] = Ok 0%R.
Proof.
  split; [reflexivity|].
  exact (proj1 (proj2 calculate_rmse_formula) [1%R; 2%R] [] eq_refl).
Defined.



(** ** The predictor *)

Lemma invariants_tide_two : invariants tide_two.
Proof.
  unfold invariants, tide_two. cbn.
  repeat split; try lia.
  repeat constructor; lra.
Qed.

(** C1, counterexample.  For a timestamp of year 1 the reference epoch,
    one hour before January 1st 00:00, is before the first [datetime]:
    [tidal_pred] raises [OverflowError] on a valid parameter set. *)
Lemma tidal_pred_year_one_raises :
  invariants tide_two
  /\ valid_datetime (mk_datetime 1 1 1 0 0 0 0)
  /\ tidal_pred tide_two (mk_datetime 1 1 1 0 0 0 0) = Raise OverflowError
  /\ tidal_pred tide_two (mk_datetime 1 1 1 0 0 0 0)
     <> Ok (spec_predict (parameter_set tide_two) (mk_datetime 1 1 1 0 0 0 0)).
Proof.
  split; [exact invariants_tide_two|]. split; [reflexivity|].
  assert (E : tidal_pred tide_two (mk_datetime 1 1 1 0 0 0 0)
              = Raise OverflowError)
    by (apply tidal_pred_year_1; reflexivity).
  split; [exact E|]. rewrite E. discriminate.
Qed.

(** C1, as amended.  For every parameter set satisfying the invariants and
    every timestamp [tb] of a year from 2 on, [tidal_pred] returns
    [0.01 * (meanLevel + sum_i (cosCoeff_i cos(2 pi t / periodHours_i)
    + sinCoeff_i sin(2 pi t / periodHours_i)))] with [t = t0 + shiftHours],
    [t0] the hours from one hour before January 1st 00:00 of the year of
    [tb] to [tb], and [shiftHours = hours_to_zero baseYear (year tb)]. *)
Theorem tidal_pred_formula (self : TidePred) (tb : datetime) :
  invariants self -> valid_datetime tb -> 2 <= year tb ->
  tidal_pred self tb = Ok (spec_predict (parameter_set self) tb).
Proof.
  intros I V Y. apply tidal_pred_ok; [now apply invariants_usable|exact V|exact Y].
Qed.

Lemma tidal_pred_formula_witness :
  tidal_pred tide_two (mk_datetime 2013 6 15 12 30 0 0)
  = Ok (spec_predict (parameter_set tide_two)
                     (mk_datetime 2013 6 15 12 30 0 0)).
Proof.
  apply tidal_pred_formula.
  - exact invariants_tide_two.
  - reflexivity.
  - cbn. lia.
Defined.

(** C5, counterexample.  Under the invariants [tidal_pred] still raises,
    for a timestamp in year 1, an exception that is no division by zero. *)
Lemma tidal_pred_not_total :
  invariants tide_two
  /\ valid_datetime (mk_datetime 1 6 15 12 0 0 0)
  /\ tidal_pred tide_two (mk_datetime 1 6 15 12 0 0 0) = Raise OverflowError.
Proof.
  split; [exact invariants_tide_two|]. split; [reflexivity|].
  apply tidal_pred_year_1. reflexivity.
Qed.

(** C5, as amended.  In exact arithmetic, under the invariants
    [tidal_pred] returns a value for every timestamp of a year from 2 on
    (it is a function of [self] and [tb] alone: no input or output).  For a
    timestamp of year 1 it raises [OverflowError].  Its other failures need a
    parameter set that breaks the invariants: [IndexError] when a list is
    shorter than the count, [ZeroDivisionError] when one of the periods in
    use is zero. *)
Theorem tidal_pred_totality (self : TidePred) (tb : datetime) :
  valid_datetime tb ->
  (invariants self -> 2 <= year tb -> exists h, tidal_pred self tb = Ok h)
  /\ (year tb = 1 -> tidal_pred self tb = Raise OverflowError)
  /\ (forall e, tidal_pred self tb = Raise e ->
        (e = OverflowError /\ year tb = 1)
        \/ (e = IndexError
            /\ exists i, Z.of_nat i < no_of_sub_tide self
                 /\ (length (sub_tide_period (tp self)) <= i
                     \/ length (cj (tp self)) <= i
                     \/ length (sj (tp self)) <= i)%nat)
        \/ (e = ZeroDivisionError
            /\ exists i, Z.of_nat i < no_of_sub_tide self
                 /\ nth_error (sub_tide_period (tp self)) i = Some 0%R)).
Proof.
  intros V. split; [|split].
  - intros I Y. eexists. apply tidal_pred_ok; [now apply invariants_usable|exact V|exact Y].
  - apply tidal_pred_year_1.
  - intros e. now apply tidal_pred_raise.
Qed.

Lemma tidal_pred_totality_witness :
  exists h, tidal_pred tide_two (mk_datetime 2024 2 29 23 59 59 999999) = Ok h.
Proof.
  apply (proj1 (tidal_pred_totality tide_two
                  (mk_datetime 2024 2 29 23 59 59 999999) eq_refl)).
  - exact invariants_tide_two.
  - cbn. lia.
Defined.

(** ** The annual grid *)

(** C8, counterexample.  For year 1 the first cell already fails: the
    generator raises [OverflowError] and produces no grid. *)
Lemma generate_hourly_report_year_one :
  invariants tide_two
  /\ generate_hourly_report (mk_HourlyReport tide_two) 1 = Raise OverflowError.
Proof.
  split; [exact invariants_tide_two|]. apply generate_hourly_report_year_1.
Qed.

(** C8, as amended.  For every parameter set satisfying the invariants and
    every year from 2 to 9999, [generate_hourly_report] returns a grid of
    [daysInYear] rows (366 for a leap year, 365 otherwise) of 24 cells each,
    in day-major, hour-minor order, and the cell [(d, h)] is the prediction
    for the timestamp [d] days and [h] hours after January 1st 00:00 of the
    year. *)
Theorem generate_hourly_report_grid (self : HourlyReport) (yr : Z) :
  invariants (tide self) -> 2 <= yr <= 9999 ->
  exists grid,
    generate_hourly_report self yr = Ok grid
    /\ Z.of_nat (length grid) = spec_days_in_year yr
    /\ forall d h,
         Z.of_nat d < spec_days_in_year yr -> (h < 24)%nat ->
         exists row v,
           nth_error grid d = Some row
           /\ length row = 24%nat
           /\ nth_error row h = Some v
           /\ tidal_pred (tide self) (grid_time yr d h) = Ok v
           /\ valid_datetime (grid_time yr d h)
           /\ year (grid_time yr d h) = yr
           /\ instant (grid_time yr d h)
              = instant (mk_datetime yr 1 1 0 0 0 0)
                + Z.of_nat d * US_PER_DAY + Z.of_nat h * US_PER_HOUR.
Proof.
  intros I Y. apply invariants_usable in I.
  pose proof (days_in_year_bounds yr) as Bd.
  eexists. split; [apply generate_hourly_report_ok; assumption|].
  rewrite length_map, length_seq, <- days_in_year_spec.
  split; [lia|].
  intros d h D H.
  destruct (grid_time_spec yr d h ltac:(lia) D H) as (V & Yg & _ & In').
  exists (map (fun h => spec_predict (parameter_set (tide self))
                                     (grid_time yr d h)) (seq 0 24)),
         (spec_predict (parameter_set (tide self)) (grid_time yr d h)).
  split.
  { rewrite nth_error_map, nth_error_seq.
    replace (d <? Z.to_nat (days_in_year yr))%nat with true
      by (symmetry; apply Nat.ltb_lt; lia). reflexivity. }
  split; [now rewrite length_map, length_seq|].
  split.
  { rewrite nth_error_map, nth_error_seq.
    replace (h <? 24)%nat with true by (symmetry; now apply Nat.ltb_lt).
    reflexivity. }
  split; [apply tidal_pred_ok; [exact I|exact V|lia]|].
  split; [exact V|]. split; [exact Yg|exact In'].
Qed.

Lemma generate_hourly_report_grid_witness :
  exists grid,
    generate_hourly_report (mk_HourlyReport tide_two) 2012 = Ok grid
    /\ Z.of_nat (length grid) = spec_days_in_year 2012.
Proof.
  destruct (generate_hourly_report_grid (mk_HourlyReport tide_two) 2012
              invariants_tide_two ltac:(lia)) as (grid & E & L & _).
  exists grid. split; [exact E|exact L].
Defined.

(** ** The parameter loader *)

Lemma load_file_two :
  read_tide_params (B := decimal_builtins) (one_file file_two) params_txt
                   TidePred_init
  = (tide_two, ([], Ok 0)).
Proof. reflexivity. Qed.

Lemma load_file_short_table :
  read_tide_params (B := decimal_builtins) (one_file file_short_table)
                   params_txt TidePred_init
  = (tide_short_table, ([], Ok 0)).
Proof. reflexivity. Qed.

Lemma load_file_negative_period :
  read_tide_params (B := decimal_builtins) (one_file file_negative_period)
                   params_txt TidePred_init
  = (tide_negative_period, ([], Ok 0)).
Proof. reflexivity. Qed.

Lemma main_file_negative_period (yr : Z) :
  snd (main (B := decimal_builtins) (one_file file_negative_period)
            params_txt yr)
  = Generated (generate_hourly_report (mk_HourlyReport tide_negative_period) yr).
Proof. reflexivity. Qed.

Lemma usable_tide_negative_period : usable tide_negative_period.
Proof.
  unfold usable, tide_negative_period. cbn.
  repeat split; try lia. repeat constructor. lra.
Qed.

(** C3, counterexample.  The load succeeds on a file whose table is
    shorter than its count, and on a file with a negative period: neither
    result satisfies the invariants, and the second one is used for
    prediction. *)
Lemma load_success_without_invariants :
  (read_tide_params (B := decimal_builtins) (one_file file_short_table)
                    params_txt TidePred_init
   = (tide_short_table, ([], Ok 0))
   /\ ~ invariants tide_short_table)
  /\ (read_tide_params (B := decimal_builtins)
                       (one_file file_negative_period) params_txt
                       TidePred_init
      = (tide_negative_period, ([], Ok 0))
      /\ ~ invariants tide_negative_period
      /\ exists grid,
           snd (main (B := decimal_builtins) (one_file file_negative_period)
                     params_txt 2013)
           = Generated (Ok grid)).
Proof.
  split; [split; [exact load_file_short_table|]|
          split; [exact load_file_negative_period|split]].
  - intros (N & _). cbn in N. lia.
  - intros (_ & _ & _ & _ & _ & _ & Per). cbn in Per.
    apply Forall_inv in Per. lra.
  - rewrite main_file_negative_period. eexists. f_equal.
    apply generate_hourly_report_ok; [exact usable_tide_negative_period|lia].
Qed.

(** C3, as amended.  Whenever [read_tide_params] reports success the base
    year is not zero, the count is positive, and the four constituent lists
    have one common length between 1 and the count; when [init_report] then
    succeeds as well, that length is the count.  Nothing establishes that
    the periods are positive. *)
Theorem load_success_guarantees {B : Builtins} (fs : filesystem) (fn : pystr) :
  (forall self self' out,
      read_tide_params fs fn self = (self', (out, Ok 0)) ->
      param_year (tp self') <> 0
      /\ 0 < no_of_sub_tide self'
      /\ exists n, loaded self' n /\ 1 <= Z.of_nat n <= no_of_sub_tide self')
  /\ (forall self self' out code,
        init_report fs fn self = (self', (out, Ok code)) ->
        code <> -1 ->
        param_year (tp (tide self')) <> 0
        /\ 0 < no_of_sub_tide (tide self')
        /\ loaded (tide self') (Z.to_nat (no_of_sub_tide (tide self')))).
Proof.
  split.
  - intros self self' out H.
    destruct (read_tide_params_cases fs fn self)
      as [(_ & E)|[(lines & s' & _ & _ & E)|(lines & s' & _ & P & E)]];
      rewrite E in H; try discriminate.
    injection H as <- <-. apply parse_lines_facts in P.
    destruct P as (_ & _ & Y & C & K). auto.
  - intros self self' out code H Hc.
    destruct (init_report_facts _ _ _ _ _ _ H)
      as [(-> & _)|(_ & _ & _ & Y & C & L)]; [contradiction|auto].
Qed.

Lemma load_success_guarantees_witness :
  param_year (tp tide_two) <> 0
  /\ 0 < no_of_sub_tide tide_two
  /\ exists n, loaded tide_two n /\ 1 <= Z.of_nat n <= no_of_sub_tide tide_two.
Proof.
  exact (proj1 (load_success_guarantees (B := decimal_builtins)
                  (one_file file_two) params_txt)
               TidePred_init tide_two [] eq_refl).
Defined.

(** C7, counterexample.  A missing path and a malformed file give the
    caller the same return value. *)
Lemma missing_and_malformed_same_code :
  one_file file_no_table missing_txt = None
  /\ one_file file_no_table params_txt = Some file_no_table
  /\ snd (snd (read_tide_params (B := decimal_builtins)
                 (one_file file_no_table) missing_txt TidePred_init))
     = snd (snd (read_tide_params (B := decimal_builtins)
                   (one_file file_no_table) params_txt TidePred_init)).
Proof. repeat split. Qed.

(** C7, as amended.  On a path that names no file [read_tide_params]
    prints the file-not-found message and returns -1; on a file it cannot
    parse it prints the parse-error message and returns the same -1.  The
    two failures differ in the printed message only, not in what the caller
    receives. *)
Theorem missing_file_failure {B : Builtins} (fs : filesystem) (fn : pystr)
  (self : TidePred) :
  (fs fn = None ->
   read_tide_params fs fn self = (self, ([MsgFileNotFound fn], Ok (-1))))
  /\ (forall lines, fs fn = Some lines ->
        snd (snd (read_tide_params fs fn self)) <> Ok 0 ->
        snd (read_tide_params fs fn self)
        = ([MsgParseError fn ValueError], Ok (-1)))
  /\ MsgFileNotFound fn <> MsgParseError fn ValueError.
Proof.
  split; [|split].
  - intros N. unfold read_tide_params. now rewrite N.
  - intros lines F H.
    destruct (read_tide_params_cases fs fn self)
      as [(N & _)|[(l & s' & _ & _ & E)|(l & s' & _ & _ & E)]].
    + congruence.
    + now rewrite E.
    + rewrite E in H. now contradiction H.
  - discriminate.
Qed.

Lemma missing_file_failure_witness :
  one_file file_two missing_txt = None
  /\ read_tide_params (B := decimal_builtins) (one_file file_two) missing_txt
                      TidePred_init
     = (TidePred_init, ([MsgFileNotFound missing_txt], Ok (-1))).
Proof.
  split; [reflexivity|].
  exact (proj1 (missing_file_failure (B := decimal_builtins)
                  (one_file file_two) missing_txt TidePred_init) eq_refl).
Defined.

(** C4.  [read_tide_params] returns the failure code -1, with the
    parse-error message, whenever after the two loops the base year is zero,
    the count is zero or no name was captured; whenever the field after a
    header line, or the period, cosine or sine field of a table row, is not
    a numeral; and whenever the file has no table header.  After such a
    failure [init_report] returns -1 and the main block exits without
    generating any prediction. *)
Theorem load_failure_signal {B : Builtins} (fs : filesystem) (fn : pystr)
  (lines : list pystr) (self : TidePred) :
  fs fn = Some lines ->
  (forall s1,
      read_fields lines self = (s1, Ok tt) ->
      param_year (tp s1) = 0 \/ no_of_sub_tide s1 = 0
      \/ tide_name (tp s1) = [] ->
      read_tide_params fs fn self
      = (s1, ([MsgParseError fn ValueError], Ok (-1))))
  /\ (forall i line next,
        scanned lines i ->
        nth_error lines i = Some line ->
        nth_error lines (S i) = Some next ->
        header_conversion_fails line next ->
        snd (read_tide_params fs fn self)
        = ([MsgParseError fn ValueError], Ok (-1)))
  /\ (forall s1 dsi i line,
        scan_headers lines 0 lines (fst (clear_lists self)) = (s1, Ok dsi) ->
        dsi <> -1 ->
        Z.of_nat i < no_of_sub_tide s1 ->
        nth_error lines (Z.to_nat (dsi + Z.of_nat i)) = Some line ->
        row_conversion_fails line ->
        snd (read_tide_params fs fn self)
        = ([MsgParseError fn ValueError], Ok (-1)))
  /\ ((forall l, In l lines -> is_table_header l = false) ->
      snd (read_tide_params fs fn self)
      = ([MsgParseError fn ValueError], Ok (-1)))
  /\ (forall report,
        tide report = self ->
        snd (snd (read_tide_params fs fn self)) = Ok (-1) ->
        snd (snd (init_report fs fn report)) = Ok (-1))
  /\ (forall yr,
        self = TidePred_init ->
        snd (snd (read_tide_params fs fn self)) = Ok (-1) ->
        snd (main fs fn yr) = Exited).
Proof.
  intros F. split; [|split; [|split; [|split; [|split]]]].
  - intros s1 Rd V. exact (validation_failure_load fs fn lines self s1 F Rd V).
  - intros i line next Sc Hl Hn Fail.
    destruct (header_failure_load fs fn lines i line next self F Sc Hl Hn Fail)
      as (s' & E).
    now rewrite E.
  - intros s1 dsi i line Scan D I Hl Fail.
    destruct (row_failure_load fs fn lines self s1 dsi i line F Scan D I Hl Fail)
      as (s' & E).
    now rewrite E.
  - intros NoT. destruct (no_table_load_fails fs fn lines self F NoT) as (s' & E).
    now rewrite E.
  - intros report <- H. unfold init_report.
    destruct (read_tide_params fs fn (tide report)) as [t [out r]].
    cbn [snd] in H. subst r. reflexivity.
  - intros yr -> H. now apply main_exits.
Qed.

Lemma load_failure_signal_witness :
  (one_file file_no_table params_txt = Some file_no_table
   /\ (forall l, In l file_no_table -> is_table_header l = false)
   /\ snd (read_tide_params (B := decimal_builtins) (one_file file_no_table)
             params_txt TidePred_init)
      = ([MsgParseError params_txt ValueError], Ok (-1))
   /\ snd (main (B := decimal_builtins) (one_file file_no_table) params_txt
             2013)
      = Exited)
  /\ (one_file file_bad_year params_txt = Some file_bad_year
      /\ header_conversion_fails (B := decimal_builtins) year_header
           (lit "    MMX" ++ nl)
      /\ snd (read_tide_params (B := decimal_builtins)
                (one_file file_bad_year) params_txt TidePred_init)
         = ([MsgParseError params_txt ValueError], Ok (-1))).
Proof.
  assert (NoT : forall l, In l file_no_table -> is_table_header l = false).
  { intros l Hl. unfold file_no_table in Hl. cbn [In] in Hl.
    repeat (destruct Hl as [<-|Hl]; [reflexivity|]). contradiction. }
  assert (Bad : header_conversion_fails (B := decimal_builtins) year_header
                  (lit "    MMX" ++ nl)).
  { left. split; reflexivity. }
  split.
  - split; [reflexivity|]. split; [exact NoT|].
    destruct (load_failure_signal (B := decimal_builtins)
                (one_file file_no_table) params_txt file_no_table
                TidePred_init eq_refl) as (_ & _ & _ & T & _ & M).
    split; [exact (T NoT)|].
    apply (M 2013 eq_refl). now rewrite (T NoT).
  - split; [reflexivity|]. split; [exact Bad|].
    destruct (load_failure_signal (B := decimal_builtins)
                (one_file file_bad_year) params_txt file_bad_year
                TidePred_init eq_refl) as (_ & H & _).
    apply (H 0%nat year_header (lit "    MMX" ++ nl)).
    + intros k line Hk. lia.
    + reflexivity.
    + reflexivity.
    + exact Bad.
Defined.

(** C6, counterexample.  A row of two fields, and a row whose six numerals
    are separated by tabs, are skipped: the load succeeds on both files and
    keeps the first row only. *)
Lemma short_row_is_skipped :
  (length (row_fields (lit "      S2     12.0" ++ nl)) = 2%nat
   /\ exists self,
        read_tide_params (B := decimal_builtins) (one_file file_short_row)
                         params_txt TidePred_init
        = (self, ([], Ok 0))
        /\ tide_name (tp self) = [lit "M2"])
  /\ (length (split (lit "S2" ++ tab ++ lit "12.0" ++ tab ++ lit "2.0" ++ tab
                     ++ lit "0.1" ++ tab ++ lit "1.5" ++ tab ++ lit "-1.25"
                     ++ nl)) = 6%nat
      /\ exists self,
           read_tide_params (B := decimal_builtins) (one_file file_tab_row)
                            params_txt TidePred_init
           = (self, ([], Ok 0))
           /\ tide_name (tp self) = [lit "M2"]).
Proof.
  split; (split; [reflexivity|]); eexists; split; reflexivity.
Qed.

(** C6, as amended.  A table row is stripped and cut at space characters
    only, empty pieces dropped: its fields are not empty and hold no space,
    and a line without a space gives one field at most.  A row of fewer than six fields is skipped and leaves the state
    unchanged.  A row of six fields or more whose period, cosine or sine
    field is not a numeral makes the load fail with the parse-error
    message. *)
Theorem row_parsing_policy {B : Builtins} (fs : filesystem) (fn : pystr)
  (lines : list pystr) (self : TidePred) :
  fs fn = Some lines ->
  (forall line,
      row_fields line = filter nonempty (pieces (fun c => c =? 32) (strip line))
      /\ (forall f, In f (row_fields line) -> f <> [] /\ ~ In 32 f)
      /\ ((forall c, In c line -> c <> 32) ->
          (length (row_fields line) <= 1)%nat))
  /\ (forall s dsi i line,
        nth_error lines (Z.to_nat (dsi + Z.of_nat i)) = Some line ->
        (length (row_fields line) < 6)%nat ->
        read_row lines dsi i s = (s, Ok tt))
  /\ (forall s1 dsi i line,
        scan_headers lines 0 lines (fst (clear_lists self)) = (s1, Ok dsi) ->
        dsi <> -1 ->
        Z.of_nat i < no_of_sub_tide s1 ->
        nth_error lines (Z.to_nat (dsi + Z.of_nat i)) = Some line ->
        row_conversion_fails line ->
        snd (read_tide_params fs fn self)
        = ([MsgParseError fn ValueError], Ok (-1))).
Proof.
  intros F. split; [|split].
  - intros line. split; [reflexivity|].
    split; [apply row_fields_shape|apply row_fields_no_space].
  - intros s dsi i line Hl L. now apply (read_row_skips lines dsi i line).
  - intros s1 dsi i line Scan D I Hl Fail.
    destruct (row_failure_load fs fn lines self s1 dsi i line F Scan D I Hl Fail)
      as (s' & E).
    now rewrite E.
Qed.

Lemma row_parsing_policy_witness :
  snd (read_tide_params (B := decimal_builtins) (one_file file_bad_period)
         params_txt TidePred_init)
  = ([MsgParseError params_txt ValueError], Ok (-1)).
Proof.
  destruct (row_parsing_policy (B := decimal_builtins)
              (one_file file_bad_period) params_txt file_bad_period
              TidePred_init eq_refl) as (_ & _ & R).
  apply (R (mk_TidePred (mk_TideParam 2010 (105 / 10)%R [] [] [] []) 2) 5 1%nat
           (lit "      S2     twelve      2.0  0.1   1.5   -1.25" ++ nl)).
  - reflexivity.
  - discriminate.
  - cbn. lia.
  - reflexivity.
  - split; [cbn; lia|]. left. reflexivity.
Defined.
